(** * ThreatMapper: the settings handler and the secret-scan listing view

    A shallow embedding of two pieces of the repository:

    - the React route module of the secret-scan listing
      (TypeScript: [getScans], the row normaliser inside it, the route
      [action] and the query-string updates of [SecretScans]);
    - the Go handler [UpdateGlobalSettings] of
      deepfence_server/handler/settings.go.

    Part I holds the models, Part II the facts proved about them. *)

From Stdlib Require Import ZArith Lia String Ascii Bool DecimalString SpecFloat.
From stdpp Require Import gmap strings list fin_maps.

Open Scope string_scope.
Open Scope list_scope.
Open Scope Z_scope.

(* ===================================================================== *)
(** * Part I.a  The listing view (TypeScript) *)
(* ===================================================================== *)

(** ** URLSearchParams

    The browser's URLSearchParams is an ordered list of name/value pairs;
    names may repeat.  The methods the handlers of the view call are modelled
    with their WHATWG meaning. *)

Abbreviation URLSearchParams := (list (string * string)).

Module USP.

(** [searchParams.getAll(name)]: the values of the entries called [name],
    in the order of the list. *)
Definition getAll (name : string) (sp : URLSearchParams) : list string :=
  (filter (fun p => p.1 = name) sp).*2.

(** [searchParams.append(name, value)]: one more entry at the end. *)
Definition append (name value : string) (sp : URLSearchParams) : URLSearchParams :=
  sp ++ [(name, value)].

(** [searchParams.delete(name)]: every entry called [name] goes. *)
Definition delete (name : string) (sp : URLSearchParams) : URLSearchParams :=
  filter (fun p => p.1 <> name) sp.

(** [searchParams.set(name, value)]: the first entry called [name] takes
    the value and the later ones are removed; without such an entry the
    pair is appended. *)
Fixpoint set (name value : string) (sp : URLSearchParams) : URLSearchParams :=
  match sp with
  | [] => [(name, value)]
  | p :: rest =>
      if bool_decide (p.1 = name) then (name, value) :: delete name rest
      else p :: set name value rest
  end.

End USP.

(** ** The search request *)

Definition PAGE_SIZE : Z := 15.

(** A [filter_in] object: field name to the accepted values.  A key that was
    never assigned is absent from the map. *)
Abbreviation FilterIn := (gmap string (list string)).

Record OrderField := { field_name : string; descending : bool }.

Record FieldsFilters := {
  contains_filter : FilterIn;          (* contains_filter.filter_in *)
  order_filter : list OrderField;      (* order_filter.order_fields *)
  match_filter : FilterIn              (* match_filter.filter_in *)
}.

Record SearchFilter := {
  filters : FieldsFilters;
  in_field_filter : option (list string)   (* always null here *)
}.

Record Window := { offset : Z; window_size : Z }.

Record SearchSearchScanReq := {
  node_filters : SearchFilter;
  scan_filters : SearchFilter;
  window : Window
}.

(** What [getOrderFromSearchParams] returns when the URL carries a sort. *)
Record Order := { sortBy : string; order_descending : bool }.

(** ** Rows *)

(** [ModelScanInfo] of the generated client.  [severity_counts] is a
    string-keyed object of numbers; a count that is missing, [undefined] or
    [null] is an absent key. *)
Record ModelScanInfo := {
  scan_id : string;
  node_id : string;
  node_type : string;
  status : string;
  updated_at : Z;
  severity_counts : gmap string Z
}.

(** A JavaScript number read from a property that may be missing: [None]
    stands for [undefined], and for the [NaN] that arithmetic on it gives. *)
Abbreviation JsNumber := (option Z).

(** [a + b] on such numbers. *)
Definition js_add (a b : JsNumber) : JsNumber :=
  match a, b with
  | Some x, Some y => Some (x + y)
  | _, _ => None
  end.

(** [ScanResult = ModelScanInfo & { total; critical; high; medium; low; unknown }]. *)
Record ScanResult := {
  scan : ModelScanInfo;
  total : JsNumber;
  critical : JsNumber;
  high : JsNumber;
  medium : JsNumber;
  low : JsNumber;
  unknown : JsNumber
}.

(** [severities.k = severities.k ?? 0]. *)
Definition default_zero (k : string) (severities : gmap string Z) : gmap string Z :=
  <[k := default 0 (severities !! k)]> severities.

(** The callback of [result.map] in [getScans].  The five assignments update
    the row's own [severity_counts] object, which the spread [...scan] then
    carries into the result. *)
Definition normalize (row : ModelScanInfo) : ScanResult :=
  let severities := severity_counts row in
  let severities := default_zero "critical" severities in
  let severities := default_zero "high" severities in
  let severities := default_zero "medium" severities in
  let severities := default_zero "low" severities in
  let severities := default_zero "unknown" severities in
  {| scan := {| scan_id := scan_id row; node_id := node_id row;
                node_type := node_type row; status := status row;
                updated_at := updated_at row;
                severity_counts := severities |};
     total := js_add (js_add (js_add (severities !! "critical")
                                     (severities !! "high"))
                             (severities !! "medium"))
                     (severities !! "low");
     critical := severities !! "critical";
     high := severities !! "high";
     medium := severities !! "medium";
     low := severities !! "low";
     unknown := severities !! "unknown" |}.

(** The value [getScans] resolves with. *)
Record Results := {
  scans : list ScanResult;
  currentPage : Z;
  totalRows : Z;
  message : option string
}.

(** [SearchSearchCountResp]. *)
Record CountResp := { count : Z }.

(** ** Awaited requests

    [makeRequest] (utils/api) is not part of the sources.  What the callers
    do with its result is: either it is an [ApiError], whose [value()] they
    read, or it is the value of the API function.  The model takes the
    resolved result from the environment and keeps the trace of the requests
    that were issued. *)

Inductive ApiResult (V E : Type) :=
  | ApiValue (v : V)
  | ApiError (e : E).
Arguments ApiValue {V E} v.
Arguments ApiError {V E} e.

Inductive Call :=
  | searchSecretsScan_call (req : SearchSearchScanReq)
  | searchSecretScanCount_call (req : SearchSearchScanReq).

(** An asynchronous computation: it extends the trace of calls and either
    throws a value of type [X] or returns. *)
Definition Async (X A : Type) : Type := list Call -> list Call * (X + A).

Definition async_ret {X A} (a : A) : Async X A := fun tr => (tr, inr a).

Definition async_throw {X A} (x : X) : Async X A := fun tr => (tr, inl x).

Definition async_bind {X A B} (m : Async X A) (k : A -> Async X B) : Async X B :=
  fun tr =>
    match m tr with
    | (tr', inl x) => (tr', inl x)
    | (tr', inr a) => k a tr'
    end.

Notation "x <- 'await' m ;; k" := (async_bind m (fun x => k))
  (at level 100, m at next level, right associativity).

(** [await makeRequest({ apiFunction, apiArgs, errorHandler })]: the call is
    recorded and the resolved result handed back.  The payload of an
    [ApiError] is what the caller's [errorHandler] has put into it. *)
Definition makeRequest {X V E} (c : Call) (resolved : ApiResult V E)
  : Async X (ApiResult V E) :=
  fun tr => (tr ++ [c], inr resolved).

(** A key of a [filter_in] object is assigned only under a guard
    [list.length > 0]: what a lookup of such a key gives for the list that
    was offered. *)
Definition when_nonempty (l : list string) : option (list string) :=
  if bool_decide (0 < length l)%nat then Some l else None.

Section GetScans.

(** [String.prototype.toUpperCase], of the JavaScript runtime. *)
Variable toUpperCase : string -> string.

(** [getPageFromSearchParams] and [getOrderFromSearchParams] live in
    utils/table, outside the sources. *)
Variable getPageFromSearchParams : URLSearchParams -> Z.
Variable getOrderFromSearchParams : URLSearchParams -> option Order.

(** The search service, seen through [makeRequest]: what each of the two
    API functions resolves to for a given request. *)
Variable searchSecretsScan :
  SearchSearchScanReq -> ApiResult (option (list ModelScanInfo)) Results.
Variable searchSecretScanCount :
  SearchSearchScanReq -> ApiResult CountResp Results.

Definition getStatusSearch (searchParams : URLSearchParams) : list string :=
  toUpperCase <$> USP.getAll "status" searchParams.

Definition getHostsSearch (searchParams : URLSearchParams) : list string :=
  USP.getAll "hosts" searchParams.

Definition getContainersSearch (searchParams : URLSearchParams) : list string :=
  USP.getAll "containers" searchParams.

Definition getContainerImagesSearch (searchParams : URLSearchParams) : list string :=
  USP.getAll "containerImages" searchParams.

Definition getLanguagesSearch (searchParams : URLSearchParams) : list string :=
  USP.getAll "languages" searchParams.

Definition getClustersSearch (searchParams : URLSearchParams) : list string :=
  USP.getAll "clusters" searchParams.

(** One of the four blocks
    [if (ids && ids?.length > 0) {
       nodeFilters.node_id = nodeFilters.node_id ? nodeFilters.node_id.concat(ids) : ids; }].
    An array is truthy whatever its length, so the guard is the length test
    and the inner test is whether the key has been assigned. *)
Definition concat_node_id (ids : list string) (nodeFilters : FilterIn) : FilterIn :=
  if bool_decide (0 < length ids)%nat then
    <["node_id" := match nodeFilters !! "node_id" with
                   | Some node_id => node_id ++ ids
                   | None => ids
                   end]> nodeFilters
  else nodeFilters.

(** [scanFilters], [nodeFilters] and [languageFilters] as they stand when
    [scanRequestParams] is built. *)
Definition scanFilters (searchParams : URLSearchParams) : FilterIn :=
  let status := getStatusSearch searchParams in
  if bool_decide (0 < length status)%nat then <["status" := status]> ∅ else ∅.

Definition nodeFilters (nodeTypes : list string) (searchParams : URLSearchParams)
  : FilterIn :=
  let nodeFilters : FilterIn := <["node_type" := nodeTypes]> ∅ in
  let hosts := getHostsSearch searchParams in
  let containers := getContainersSearch searchParams in
  let images := getContainerImagesSearch searchParams in
  let languages := getLanguagesSearch searchParams in
  let clusters := getClustersSearch searchParams in
  let nodeFilters := concat_node_id hosts nodeFilters in
  let nodeFilters := concat_node_id containers nodeFilters in
  let nodeFilters := concat_node_id images nodeFilters in
  let nodeFilters := concat_node_id languages nodeFilters in
  if bool_decide (0 < length clusters)%nat
  then <["kubernetes_cluster_id" := clusters]> nodeFilters
  else nodeFilters.

Definition languageFilters (searchParams : URLSearchParams) : FilterIn :=
  let languages := getLanguagesSearch searchParams in
  if bool_decide (0 < length languages)%nat
  then <["trigger_action" := languages]> ∅ else ∅.

(** [scanRequestParams], after the [if (order)] assignment. *)
Definition scanRequestParams (nodeTypes : list string) (searchParams : URLSearchParams)
  : SearchSearchScanReq :=
  let page := getPageFromSearchParams searchParams in
  let order := getOrderFromSearchParams searchParams in
  {| node_filters :=
       {| filters := {| contains_filter := nodeFilters nodeTypes searchParams;
                        order_filter := [];
                        match_filter := ∅ |};
          in_field_filter := None |};
     scan_filters :=
       {| filters := {| contains_filter := scanFilters searchParams;
                        order_filter :=
                          match order with
                          | Some o => [ {| field_name := sortBy o;
                                           descending := order_descending o |} ]
                          | None => []
                          end;
                        match_filter := languageFilters searchParams |};
          in_field_filter := None |};
     window := {| offset := page * PAGE_SIZE; window_size := PAGE_SIZE |} |}.

(** The argument of the count call:
    [{ ...scanRequestParams,
       window: { ...scanRequestParams.window, size: 10 * scanRequestParams.window.size } }]. *)
Definition countRequestParams (req : SearchSearchScanReq) : SearchSearchScanReq :=
  {| node_filters := node_filters req;
     scan_filters := scan_filters req;
     window := {| offset := offset (window req);
                  window_size := 10 * window_size (window req) |} |}.

Definition initial_results : Results :=
  {| scans := []; currentPage := 1; totalRows := 0; message := None |}.

(** [getScans]: an [ApiError] from either call is thrown as its [value()];
    a [null] page result returns the initial [results]. *)
Definition getScans (nodeTypes : list string) (searchParams : URLSearchParams)
  : Async Results Results :=
  let results := initial_results in
  let page := getPageFromSearchParams searchParams in
  let req := scanRequestParams nodeTypes searchParams in
  result <- await makeRequest (searchSecretsScan_call req) (searchSecretsScan req) ;;
  match result with
  | ApiError e => async_throw e
  | ApiValue result =>
      let countReq := countRequestParams req in
      countsResult <- await makeRequest (searchSecretScanCount_call countReq)
                                        (searchSecretScanCount countReq) ;;
      match countsResult with
      | ApiError e => async_throw e
      | ApiValue countsResult =>
          match result with
          | None => async_ret results
          | Some rows =>
              async_ret {| scans := normalize <$> rows;
                           currentPage := page;
                           totalRows := page * PAGE_SIZE + count countsResult;
                           message := message results |}
          end
      end
  end.

End GetScans.

(** ** The route action *)

(** What the action does to the outside world, in order. *)
Inductive Effect :=
  | deleteScanResultsForScanID (scanId scanType : string)
  | downloadScanResultsForScanID (scanId scanType : string)
  | toast_error (msg : string)
  | toast_success (msg : string)
  | anchor_click (href download : string).

#[global] Instance Effect_eq_dec : EqDecision Effect.
Proof. solve_decision. Defined.

(** [ModelScanResultsActionRequestScanTypeEnum.SecretScan] of the generated
    client. *)
Definition SecretScan : string := "SecretScan".

(** JavaScript truthiness of a form entry: [null] and the empty string are
    falsy. *)
Definition truthy (v : option string) : bool :=
  match v with
  | None | Some "" => false
  | Some _ => true
  end.

(** The [errorHandler] both branches of [action] pass to [makeRequest]: for
    a 400 or 409 response it fills the error with the body's message, or
    with the empty string; for any other status it returns [undefined].
    The payload of the [ApiError] is modelled by its [message] field. *)
Definition action_errorHandler (status : Z) (body_message : option string)
  : option (option string) :=
  if bool_decide (status = 400 \/ status = 409)
  then Some (Some (default "" body_message))
  else None.

(** The lines that follow each [await makeRequest]:
    [if (ApiError.isApiError(result)) {
       if (result.value()?.message !== undefined) { toast.error(message) } }]. *)
Definition report_failure (result : ApiResult unit (option string)) : list Effect :=
  match result with
  | ApiError (Some message) => [toast_error message]
  | ApiError None => []
  | ApiValue _ => []
  end.

(** [action].  [actionType], [scanId], [nodeId] are [formData.get(...)];
    [result] is what the branch's [makeRequest] resolves to; [unixTime] is
    [dayjs(new Date()).unix()].  The action throws 'Invalid action' or
    returns [null] after its effects. *)
Definition action (actionType scanId nodeId : option string) (unixTime : Z)
    (result : ApiResult unit (option string)) : string + list Effect :=
  if negb (truthy actionType) || negb (truthy scanId) || negb (truthy nodeId)
  then inl "Invalid action"
  else if bool_decide (actionType = Some "delete") then
    inr ([deleteScanResultsForScanID (default "" scanId) SecretScan]
         ++ report_failure result
         ++ [toast_success "Scan deleted successfully"])
  else if bool_decide (actionType = Some "download") then
    inr ([downloadScanResultsForScanID (default "" scanId) SecretScan]
         ++ report_failure result
         ++ [toast_success "Download is in progress";
             anchor_click "https://64.227.142.80/deepfence/openapi.json"
               ("secret_scan_" +:+ NilZero.string_of_int (Z.to_int unixTime))])
  else inr [].

(** ** Query-string updates of the view

    Each handler hands [setSearchParams] a function of the previous
    parameters. *)

(** [onCheckedChange] of the "Host" checkbox. *)
Definition host_onCheckedChange (state : bool) (prev : URLSearchParams)
  : URLSearchParams :=
  if state then
    let prev := USP.append "nodeType" "host" prev in
    USP.delete "page" prev
  else
    let prevStatuses := USP.getAll "nodeType" prev in
    let prev := USP.delete "nodeType" prev in
    let prev :=
      foldl (fun prev status => USP.append "nodeType" status prev) prev
            (filter (fun status => status <> "host") prevStatuses) in
    USP.delete "page" prev.

(** [String(b)] for a boolean and [String(n)] for an integral number. *)
Definition String_of_bool (b : bool) : string := if b then "true" else "false".

Definition String_of_number (n : Z) : string := NilZero.string_of_int (Z.to_int n).

(** [onPaginationChange], once [newPageIndex] is known. *)
Definition onPaginationChange (newPageIndex : Z) (prev : URLSearchParams)
  : URLSearchParams :=
  USP.set "page" (String_of_number newPageIndex) prev.

(** An entry of the table's [SortingState]. *)
Record ColumnSort := { id : string; desc : bool }.

(** [onSortingChange], once [newSortState] is known. *)
Definition onSortingChange (newSortState : list ColumnSort) (prev : URLSearchParams)
  : URLSearchParams :=
  match newSortState with
  | [] =>
      let prev := USP.delete "sortby" prev in
      USP.delete "desc" prev
  | first :: _ =>
      let prev := USP.set "sortby" (id first) prev in
      USP.set "desc" (String_of_bool (desc first)) prev
  end.

(** What the spec calls the query string with its page entries removed. *)
Definition without_page (q : URLSearchParams) : URLSearchParams :=
  USP.delete "page" q.

(* ===================================================================== *)
(** * Part I.b  The settings handler (Go) *)
(* ===================================================================== *)

(** Go's [error] values are modelled by their text. *)
Abbreviation go_error := string (only parsing).

(** ** The pieces of package strings the URL parser uses

    Go strings are byte strings, as Rocq's are. *)

Module gostrings.

Fixpoint HasPrefix (s prefix : string) {struct prefix} : bool :=
  match prefix, s with
  | EmptyString, _ => true
  | String a prefix', String b s' => Ascii.eqb a b && HasPrefix s' prefix'
  | String _ _, EmptyString => false
  end.

Definition HasSuffix (s suffix : string) : bool :=
  let n := String.length s in
  let k := String.length suffix in
  (k <=? n)%nat && String.eqb (substring (n - k) k s) suffix.

(** [strings.Count(s, c)] for a one-byte [c]. *)
Fixpoint Count (s : string) (c : ascii) : nat :=
  match s with
  | EmptyString => 0%nat
  | String a rest => ((if Ascii.eqb a c then 1 else 0) + Count rest c)%nat
  end.

(** [strings.Index(s, substr)]; [None] is Go's -1. *)
Definition Index (s substr : string) : option nat := String.index 0 substr s.

(** [strings.LastIndex(s, c)] for a one-byte [c]. *)
Fixpoint LastIndex (s : string) (c : ascii) : option nat :=
  match s with
  | EmptyString => None
  | String a rest =>
      match LastIndex rest c with
      | Some i => Some (S i)
      | None => if Ascii.eqb a c then Some 0%nat else None
      end
  end.

(** [strings.Cut(s, c)] for a one-byte [c]: before, after, found. *)
Fixpoint Cut (s : string) (c : ascii) : string * string * bool :=
  match s with
  | EmptyString => (EmptyString, EmptyString, false)
  | String a rest =>
      if Ascii.eqb a c then (EmptyString, rest, true)
      else let '(before, after, found) := Cut rest c in (String a before, after, found)
  end.

(** [s[:i]] and [s[i:]]. *)
Definition slice_to (s : string) (i : nat) : string := substring 0 i s.

Definition slice_from (s : string) (i : nat) : string :=
  substring i (String.length s - i) s.

Definition between (lo hi c : ascii) : bool :=
  (N_of_ascii lo <=? N_of_ascii c)%N && (N_of_ascii c <=? N_of_ascii hi)%N.

(** [strings.ToLower] on the ASCII letters (a scheme holds nothing else). *)
Definition lower (c : ascii) : ascii :=
  if between "A" "Z" c then ascii_of_N (N_of_ascii c + 32) else c.

Fixpoint ToLower (s : string) : string :=
  match s with
  | EmptyString => EmptyString
  | String a rest => String (lower a) (ToLower rest)
  end.

End gostrings.

(** ** net/url: ParseRequestURI

    The handler validates the console URL with [url.ParseRequestURI] of Go's
    standard library, which is [parse(rawURL, true)].  The model follows
    that function and its helpers for [viaRequest = true]; of the result it
    keeps the fields the parser fills on this path, [RawPath] apart. *)

Module url.

Import gostrings.

Record Userinfo := {
  username : string;
  password : string;
  passwordSet : bool
}.

Record URL := {
  Scheme : string;
  Opaque : string;
  User : option Userinfo;
  Host : string;
  Path : string;
  OmitHost : bool;
  ForceQuery : bool;
  RawQuery : string
}.

Inductive encoding :=
  | encodePath
  | encodeHost
  | encodeZone
  | encodeUserPassword.

Definition is_letter (c : ascii) : bool := between "a" "z" c || between "A" "Z" c.

Definition is_digit (c : ascii) : bool := between "0" "9" c.

Definition one_of (chars : string) (c : ascii) : bool :=
  bool_decide (c ∈ list_ascii_of_string chars).

Definition ishex (c : ascii) : bool :=
  is_digit c || between "a" "f" c || between "A" "F" c.

Definition unhex (c : ascii) : N :=
  if is_digit c then N_of_ascii c - N_of_ascii "0"
  else if between "a" "f" c then N_of_ascii c - N_of_ascii "a" + 10
  else if between "A" "F" c then N_of_ascii c - N_of_ascii "A" + 10
  else 0.

(** The double quote, which a string literal cannot hold here. *)
Definition dquote : ascii := ascii_of_N 34.

(** [stringContainsCTLByte]. *)
Fixpoint stringContainsCTLByte (s : string) : bool :=
  match s with
  | EmptyString => false
  | String b rest =>
      (N_of_ascii b <? 32)%N || (N_of_ascii b =? 127)%N || stringContainsCTLByte rest
  end.

(** [shouldEscape(c, encodeHost)]: letters, digits, the sub-delimiters and
    the brackets of a host, and the unreserved marks stay as they are. *)
Definition shouldEscape_host (c : ascii) : bool :=
  if is_letter c || is_digit c then false
  else if one_of "!$&'()*+,;=:[]<>" c || Ascii.eqb c dquote then false
  else if one_of "-_.~" c then false
  else true.

(** [getScheme]: the loop over [rawURL], at index [i] with [s = rawURL[i:]]. *)
Fixpoint getScheme_from (rawURL : string) (i : nat) (s : string)
  : go_error + string * string :=
  match s with
  | EmptyString => inr (EmptyString, rawURL)
  | String c rest =>
      if is_letter c then getScheme_from rawURL (S i) rest
      else if is_digit c || one_of "+-." c then
        if (i =? 0)%nat then inr (EmptyString, rawURL)
        else getScheme_from rawURL (S i) rest
      else if Ascii.eqb c ":" then
        if (i =? 0)%nat then inl "missing protocol scheme"
        else inr (slice_to rawURL i, rest)
      else inr (EmptyString, rawURL)
  end.

Definition getScheme (rawURL : string) : go_error + string * string :=
  getScheme_from rawURL 0 rawURL.

(** [unescape(s, mode)]: Go checks the escapes in a first pass and decodes
    in a second; the model does both in one, failing where the first pass
    would. *)
Fixpoint unescape (s : string) (mode : encoding) : go_error + string :=
  match s with
  | EmptyString => inr EmptyString
  | String "%" rest =>
      match rest with
      | String h1 (String h2 rest') =>
          if negb (ishex h1 && ishex h2) then inl "invalid URL escape"
          else
            let v := ascii_of_N (16 * unhex h1 + unhex h2) in
            let is25 := Ascii.eqb h1 "2" && Ascii.eqb h2 "5" in
            let refused :=
              match mode with
              | encodeHost => (unhex h1 <? 8)%N && negb is25
              | encodeZone => negb is25 && negb (Ascii.eqb v " ") && shouldEscape_host v
              | _ => false
              end in
            if refused then inl "invalid URL escape"
            else match unescape rest' mode with
                 | inl e => inl e
                 | inr t => inr (String v t)
                 end
      | _ => inl "invalid URL escape"
      end
  | String c rest =>
      let refused :=
        match mode with
        | encodeHost | encodeZone => (N_of_ascii c <? 128)%N && shouldEscape_host c
        | _ => false
        end in
      if refused then inl "invalid character in host name"
      else match unescape rest mode with
           | inl e => inl e
           | inr t => inr (String c t)
           end
  end.

(** [validOptionalPort]: empty, or a colon and digits. *)
Fixpoint all_digits (s : string) : bool :=
  match s with
  | EmptyString => true
  | String b rest => is_digit b && all_digits rest
  end.

Definition validOptionalPort (port : string) : bool :=
  match port with
  | EmptyString => true
  | String c rest => Ascii.eqb c ":" && all_digits rest
  end.

(** [validUserinfo]. *)
Fixpoint validUserinfo (s : string) : bool :=
  match s with
  | EmptyString => true
  | String r rest =>
      (is_letter r || is_digit r || one_of "-._:~!$&'()*+,;=%@" r)
      && validUserinfo rest
  end.

(** [parseHost]. *)
Definition parseHost (host : string) : go_error + string :=
  let plain := unescape host encodeHost in
  if HasPrefix host "[" then
    match LastIndex host "]" with
    | None => inl "missing ']' in host"
    | Some i =>
        let colonPort := slice_from host (i + 1) in
        if negb (validOptionalPort colonPort) then inl "invalid port after host"
        else
          match Index (slice_to host i) "%25" with
          | Some zone =>
              match unescape (slice_to host zone) encodeHost with
              | inl e => inl e
              | inr host1 =>
                  match unescape (substring zone (i - zone) host) encodeZone with
                  | inl e => inl e
                  | inr host2 =>
                      match unescape (slice_from host i) encodeHost with
                      | inl e => inl e
                      | inr host3 => inr (host1 +:+ host2 +:+ host3)
                      end
                  end
              end
          | None => plain
          end
    end
  else
    match LastIndex host ":" with
    | Some i =>
        if negb (validOptionalPort (slice_from host i)) then inl "invalid port after host"
        else plain
    | None => plain
    end.

(** [parseAuthority]: user information, then host. *)
Definition parseAuthority (authority : string) : go_error + option Userinfo * string :=
  let i := LastIndex authority "@" in
  let host :=
    match i with
    | None => parseHost authority
    | Some i => parseHost (slice_from authority (i + 1))
    end in
  match host, i with
  | inl e, _ => inl e
  | inr host, None => inr (None, host)
  | inr host, Some i =>
      let userinfo := slice_to authority i in
      if negb (validUserinfo userinfo) then inl "net/url: invalid userinfo"
      else if (Count userinfo ":" =? 0)%nat then
        match unescape userinfo encodeUserPassword with
        | inl e => inl e
        | inr userinfo =>
            inr (Some {| username := userinfo; password := EmptyString;
                         passwordSet := false |}, host)
        end
      else
        let '(username, password, _) := Cut userinfo ":" in
        match unescape username encodeUserPassword with
        | inl e => inl e
        | inr username =>
            match unescape password encodeUserPassword with
            | inl e => inl e
            | inr password =>
                inr (Some {| username := username; password := password;
                             passwordSet := true |}, host)
            end
        end
  end.

(** [parse(rawURL, true)]. *)
Definition parse (rawURL : string) : go_error + URL :=
  if stringContainsCTLByte rawURL then inl "net/url: invalid control character in URL"
  else if String.eqb rawURL EmptyString then inl "empty url"
  else if String.eqb rawURL "*" then
    inr {| Scheme := EmptyString; Opaque := EmptyString; User := None;
           Host := EmptyString; Path := "*"; OmitHost := false;
           ForceQuery := false; RawQuery := EmptyString |}
  else
    match getScheme rawURL with
    | inl e => inl e
    | inr (scheme, rest) =>
        let scheme := ToLower scheme in
        let '(rest, rawQuery, forceQuery) :=
          if HasSuffix rest "?" && (Count rest "?" =? 1)%nat
          then (slice_to rest (String.length rest - 1), EmptyString, true)
          else let '(before, after, _) := Cut rest "?" in (before, after, false) in
        if negb (HasPrefix rest "/") then
          if negb (String.eqb scheme EmptyString) then
            inr {| Scheme := scheme; Opaque := rest; User := None;
                   Host := EmptyString; Path := EmptyString; OmitHost := false;
                   ForceQuery := forceQuery; RawQuery := rawQuery |}
          else inl "invalid URI for request"
        else
          let has_authority :=
            negb (String.eqb scheme EmptyString) && HasPrefix rest "//" in
          let parsed :=
            if has_authority then
              let authority := slice_from rest 2 in
              let '(authority, rest) :=
                match Index authority "/" with
                | Some i => (slice_to authority i, slice_from authority i)
                | None => (authority, EmptyString)
                end in
              match parseAuthority authority with
              | inl e => inl e
              | inr (user, host) => inr (user, host, rest, false)
              end
            else inr (None, EmptyString, rest, negb (String.eqb scheme EmptyString)) in
          match parsed with
          | inl e => inl e
          | inr (user, host, rest, omitHost) =>
              match unescape rest encodePath with     (* setPath *)
              | inl e => inl e
              | inr path =>
                  inr {| Scheme := scheme; Opaque := EmptyString; User := user;
                         Host := host; Path := path; OmitHost := omitHost;
                         ForceQuery := forceQuery; RawQuery := rawQuery |}
              end
          end
    end.

(** [ParseRequestURI]: [parse] with the error wrapped. *)
Definition ParseRequestURI (rawURL : string) : go_error + URL :=
  match parse rawURL with
  | inl e => inl ("parse: " +:+ e)
  | inr u => inr u
  end.

End url.

(** ** float64, math.Round and the conversion to int *)

(** A float64 is an IEEE 754 binary64 datum: a zero, an infinity, a NaN, or
    a finite number [(-1)^s * m * 2^e]. *)
Abbreviation float64 := spec_float.

(** [math.Round]: the nearest integer, halves away from zero; zeros,
    infinities and NaN are returned as they are.  A finite number with a
    negative exponent [e] is [m / 2^(-e)] in magnitude, and its rounded
    magnitude is the floor of that plus one half. *)
Definition math_Round (x : float64) : float64 :=
  match x with
  | S754_finite s m e =>
      if 0 <=? e then x
      else
        let d := 2 ^ (- e) in
        match (2 * Z.pos m + d) / (2 * d) with
        | Z.pos q => S754_finite s q 0
        | _ => S754_zero s
        end
  | _ => x
  end.

Definition MinInt64 : Z := - 2 ^ 63.
Definition MaxInt64 : Z := 2 ^ 63 - 1.

(** [int(x)] for a float64 [x] on a 64-bit platform: the fraction is
    discarded.  For a value that does not fit, and for infinities and NaN,
    the language leaves the result to the implementation; the model gives
    what amd64 gives, the smallest int64. *)
Definition int_of_float64 (x : float64) : Z :=
  match x with
  | S754_zero _ => 0
  | S754_finite s m e =>
      let magnitude := if 0 <=? e then Z.pos m * 2 ^ e else Z.pos m / 2 ^ (- e) in
      let v := if s then - magnitude else magnitude in
      if (MinInt64 <=? v) && (v <=? MaxInt64) then v else MinInt64
  | _ => MinInt64
  end.

(** ** strconv.ParseInt(s, 10, 64) *)

Fixpoint parse_digits (s : string) (acc : Z) : option Z :=
  match s with
  | EmptyString => Some acc
  | String c rest =>
      if url.is_digit c
      then parse_digits rest (10 * acc + Z.of_N (N_of_ascii c - N_of_ascii "0"))
      else None
  end.

Definition ParseInt (s : string) : go_error + Z :=
  let '(neg, digits) :=
    match s with
    | String "+" rest => (false, rest)
    | String "-" rest => (true, rest)
    | _ => (false, s)
    end in
  match digits with
  | EmptyString => inl "strconv.ParseInt: invalid syntax"
  | _ =>
      match parse_digits digits 0 with
      | None => inl "strconv.ParseInt: invalid syntax"
      | Some n =>
          let v := if neg then - n else n in
          if (MinInt64 <=? v) && (v <=? MaxInt64) then inr v
          else inl "strconv.ParseInt: value out of range"
      end
  end.

(** ** Settings *)

(** A value of type [interface{}] as the JSON decoder leaves it in
    [SettingUpdateRequest.Value]: a string, a float64 (every JSON number),
    or something else (a boolean, null, an array, an object). *)
Inductive RequestValue :=
  | ReqString (s : string)
  | ReqFloat64 (f : float64)
  | ReqOther.

(** The [interface{}] the handler stores: the zero value [nil], a string or
    an int. *)
Inductive StoredValue :=
  | StoredNil
  | StoredString (s : string)
  | StoredInt (n : Z).

Record SettingUpdateRequest := {
  req_ID : Z;
  req_Key : string;
  req_Value : RequestValue
}.

Record SettingValue := {
  Label : string;
  Value : StoredValue;
  Description : string
}.

Record Setting := {
  ID : Z;
  Key : string;
  setting_Value : SettingValue;
  IsVisibleOnUi : bool
}.

(** Modelled from the spec: the constants of package model are not in the
    sources.  The spec names the two keys the handler knows, the console URL
    and the retention of inactive nodes; they are two different strings. *)
Definition ConsoleURLSettingKey : string := "console_url".

Definition InactiveNodesDeleteScanResultsKey : string := "inactive_delete_scan_results".

(** Modelled from the spec: the setting table and its accessor are not in
    the sources.  The accessor reads and writes a single named row, so the
    table is a map from the key to the rest of the row; the store may also
    be unavailable. *)
Record SettingRow := {
  row_ID : Z;
  row_Value : SettingValue;
  row_IsVisibleOnUi : bool
}.

Record Postgres := {
  available : bool;
  setting : gmap string SettingRow
}.

(** Modelled from the spec: [directory.PostgresClient], which fails when the
    store is unavailable. *)
Definition PostgresClient (db : Postgres) : go_error + gmap string SettingRow :=
  if available db then inr (setting db) else inl "postgres client unavailable".

(** Modelled from the spec: [model.GetSettingByKey], the row of that name or
    the store's row-not-found error. *)
Definition GetSettingByKey (pgClient : gmap string SettingRow) (key : string)
  : go_error + Setting :=
  match pgClient !! key with
  | Some row => inr {| ID := row_ID row; Key := key;
                       setting_Value := row_Value row;
                       IsVisibleOnUi := row_IsVisibleOnUi row |}
  | None => inl "sql: no rows in result set"
  end.

(** Modelled from the spec: [Setting.Update], which persists the setting in
    the row of its key. *)
Definition Update (s : Setting) (pgClient : gmap string SettingRow)
  : go_error + gmap string SettingRow :=
  match pgClient !! Key s with
  | Some _ => inr (<[Key s := {| row_ID := ID s; row_Value := setting_Value s;
                                 row_IsVisibleOnUi := IsVisibleOnUi s |}]> pgClient)
  | None => inl "sql: no rows in result set"
  end.

(** The errors the handler passes to [respondError]: its own wrappers
    [BadDecoding] and [ValidatorError], and the errors of its collaborators,
    passed on as they come. *)
Inductive HandlerError :=
  | BadDecoding (err : go_error)
  | ValidatorError (err : go_error)
  | Unwrapped (err : go_error).

(** What the handler writes: an error through [respondError], or a bare
    status. *)
Inductive Response :=
  | respondError (err : HandlerError)
  | WriteHeader (status : Z).

Definition StatusNoContent : Z := 204.

(** The receiver: [h.Validator.Struct] says what is wrong with a request,
    if anything.  The struct tags it reads are not in the sources. *)
Record Handler := {
  Validator_Struct : SettingUpdateRequest -> option go_error
}.

(** The request, as far as the handler reads it: the [id] parameter of the
    route and the body, which [httpext.DecodeJSON] decodes into a key and a
    value or refuses. *)
Record Request := {
  URLParam_id : string;
  DecodeJSON : go_error + string * RequestValue
}.

(** [fmt.Sprintf("%s", v)]: a string operand is printed as it is.  For an
    operand of any other type fmt prints its bad-verb form, which begins
    with "%!s(", or with "[" or "map[" for arrays and objects; [None] stands
    for such a text. *)
Definition Sprintf_s (v : RequestValue) : option string :=
  match v with
  | ReqString s => Some s
  | _ => None
  end.

(** [url.ParseRequestURI] on the text [Sprintf_s] stands for.  A bad-verb
    text has no scheme and no leading slash, which the parser refuses. *)
Definition ParseRequestURI_printed (consoleUrl : option string) : go_error + url.URL :=
  match consoleUrl with
  | Some s => url.ParseRequestURI s
  | None => inl "parse: invalid URI for request"
  end.

(** Go's early returns: [inl] is the response already written. *)
Notation "x <- m 'or' 'return' f ;; k" :=
  (match m with
   | inl err => inl (respondError (f err))
   | inr x => k
   end)
  (at level 100, m at next level, f at next level, right associativity).

(** The [switch currentSettings.Key] block: the value to store, or the
    validation error.  There is no default case: for any other key [value]
    keeps its zero value. *)
Definition switch_Key (currentSettings : Setting) (req : SettingUpdateRequest)
  : HandlerError + StoredValue :=
  if String.eqb (Key currentSettings) ConsoleURLSettingKey then
    let consoleUrl := Sprintf_s (req_Value req) in
    match ParseRequestURI_printed consoleUrl with
    | inl _ => inl (ValidatorError "Key: 'SettingUpdateRequest.Value' Error:must be url")
    | inr parsedUrl =>
        inr (StoredString (url.Scheme parsedUrl +:+ "://" +:+ url.Host parsedUrl))
    end
  else if String.eqb (Key currentSettings) InactiveNodesDeleteScanResultsKey then
    match req_Value req with
    | ReqFloat64 val => inr (StoredInt (int_of_float64 (math_Round val)))
    | _ => inl (ValidatorError "Key: 'SettingUpdateRequest.Value' Error:must be integer")
    end
  else inr StoredNil.

(** [UpdateGlobalSettings], up to the response: the table after the
    update, or the error response written on the way. *)
Definition UpdateGlobalSettings_run (h : Handler) (r : Request) (db : Postgres)
  : Response + gmap string SettingRow :=
  pgClient <- PostgresClient db or return Unwrapped ;;
  settingId <- ParseInt (URLParam_id r) or return BadDecoding ;;
  body <- DecodeJSON r or return Unwrapped ;;
  let req := {| req_ID := settingId; req_Key := body.1; req_Value := body.2 |} in
  match Validator_Struct h req with
  | Some err => inl (respondError (ValidatorError err))
  | None =>
      currentSettings <- GetSettingByKey pgClient (req_Key req) or return Unwrapped ;;
      if negb (req_ID req =? ID currentSettings) then
        inl (respondError
               (ValidatorError "Key: 'SettingUpdateRequest.ID' Error:invalid"))
      else
        value <- switch_Key currentSettings req or return (fun err => err) ;;
        let setting :=
          {| ID := req_ID req;
             Key := req_Key req;
             setting_Value :=
               {| Label := Label (setting_Value currentSettings);
                  Value := value;
                  Description := Description (setting_Value currentSettings) |};
             IsVisibleOnUi := IsVisibleOnUi currentSettings |} in
        pgClient' <- Update setting pgClient or return Unwrapped ;;
        inr pgClient'
  end.

(** [UpdateGlobalSettings]: the response and the store afterwards. *)
Definition UpdateGlobalSettings (h : Handler) (r : Request) (db : Postgres)
  : Response * Postgres :=
  match UpdateGlobalSettings_run h r db with
  | inl response => (response, db)
  | inr pgClient' =>
      (WriteHeader StatusNoContent,
       {| available := available db; setting := pgClient' |})
  end.

(* ===================================================================== *)
(** * Part I.c  Sample data and the spec's own notions *)
(* ===================================================================== *)

(** [toUpperCase] on ASCII text, as the JavaScript runtime computes it
    there; used where a concrete run of [getScans] is evaluated. *)
Definition upper (c : ascii) : ascii :=
  if gostrings.between "a" "z" c then ascii_of_N (N_of_ascii c - 32) else c.

Fixpoint toUpperCase_ascii (s : string) : string :=
  match s with
  | EmptyString => EmptyString
  | String c rest => String (upper c) (toUpperCase_ascii rest)
  end.

(** The row of the spec's normalisation example: high 2, low 1, the other
    three counts missing. *)
Definition example_row : ModelScanInfo :=
  {| scan_id := "scan-1"; node_id := "node-1"; node_type := "host";
     status := "COMPLETE"; updated_at := 0;
     severity_counts := <["high" := 2]> (<["low" := 1]> ∅) |}.

(** A search service for a concrete run: page 2, no sort, a page request
    that resolves with [rows] and a count request that resolves with 40. *)
Definition example_page (_ : URLSearchParams) : Z := 2.

Definition example_order (_ : URLSearchParams) : option Order := None.

Definition example_search (rows : option (list ModelScanInfo))
    (_ : SearchSearchScanReq) : ApiResult (option (list ModelScanInfo)) Results :=
  ApiValue rows.

Definition example_count (_ : SearchSearchScanReq) : ApiResult CountResp Results :=
  ApiValue {| count := 40 |}.

(** A query string with a node type, a page and a status. *)
Definition example_query : URLSearchParams :=
  [("nodeType", "container"); ("page", "3"); ("status", "complete")].

(** The float64 nearest to 7.6, which is 8556839292003942 * 2^-50, and the
    float64 -2.5, which is -(5 * 2^-1). *)
Definition float_7_6 : float64 := S754_finite false 8556839292003942 (-50).

Definition float_minus_2_5 : float64 := S754_finite true 5 (-1).

(** A finite float64 as a fraction [float_num / float_den] with a positive
    denominator. *)
Definition float_num (x : float64) : Z :=
  match x with
  | S754_finite s m e => cond_Zopp s (Z.pos m * 2 ^ Z.max 0 e)
  | _ => 0
  end.

Definition float_den (x : float64) : Z :=
  match x with
  | S754_finite s m e => 2 ^ Z.max 0 (- e)
  | _ => 1
  end.

(** Round-half-up, in the spec's words: the nearest integer, a half going
    up, which is the floor of the number plus one half. *)
Definition round_half_up (num den : Z) : Z := (2 * num + den) / (2 * den).

(** The nearest integer with a half going away from zero. *)
Definition round_half_away (num den : Z) : Z :=
  Z.sgn num * ((2 * Z.abs num + den) / (2 * den)).

(** A settings table with the two rows the handler knows and one row of
    another key. *)
Definition console_row : SettingRow :=
  {| row_ID := 1;
     row_Value := {| Label := "Console URL";
                     Value := StoredString "https://old.example";
                     Description := "Address of the console" |};
     row_IsVisibleOnUi := true |}.

Definition retention_row : SettingRow :=
  {| row_ID := 2;
     row_Value := {| Label := "Inactive nodes retention";
                     Value := StoredInt 30;
                     Description := "Days before scan results are deleted" |};
     row_IsVisibleOnUi := true |}.

Definition other_row : SettingRow :=
  {| row_ID := 3;
     row_Value := {| Label := "Email"; Value := StoredString "smtp";
                     Description := "Mail settings" |};
     row_IsVisibleOnUi := false |}.

Definition example_db : Postgres :=
  {| available := true;
     setting := <[ConsoleURLSettingKey := console_row]>
                  (<[InactiveNodesDeleteScanResultsKey := retention_row]>
                     (<["email_configuration" := other_row]> ∅)) |}.

(** A table that holds the console URL row alone. *)
Definition console_only_db : Postgres :=
  {| available := true; setting := <[ConsoleURLSettingKey := console_row]> ∅ |}.

(** A validator with the [required] rule on the key. *)
Definition example_handler : Handler :=
  {| Validator_Struct := fun req =>
       if String.eqb (req_Key req) EmptyString
       then Some "Key: 'SettingUpdateRequest.Key' Error:required"
       else None |}.

Definition example_request (id key : string) (v : RequestValue) : Request :=
  {| URLParam_id := id; DecodeJSON := inr (key, v) |}.

(** No two rows of the table share an id (the primary key). *)
Definition ids_unique (table : gmap string SettingRow) : Prop :=
  forall k1 k2 r1 r2,
    table !! k1 = Some r1 -> table !! k2 = Some r2 ->
    row_ID r1 = row_ID r2 -> k1 = k2.


(** The setting the handler hands to [Update], as a table row. *)
Definition updated_row (id : Z) (old : SettingRow) (value : StoredValue) : SettingRow :=
  {| row_ID := id;
     row_Value := {| Label := Label (row_Value old);
                     Value := value;
                     Description := Description (row_Value old) |};
     row_IsVisibleOnUi := row_IsVisibleOnUi old |}.

Definition current_of (key : string) (row : SettingRow) : Setting :=
  {| ID := row_ID row; Key := key; setting_Value := row_Value row;
     IsVisibleOnUi := row_IsVisibleOnUi row |}.

(** No byte of the text is a control byte, a percent sign or a question
    mark. *)
Fixpoint plain_text (s : string) : bool :=
  match s with
  | EmptyString => true
  | String c rest =>
      negb ((N_of_ascii c <? 32)%N || (N_of_ascii c =? 127)%N)
      && negb (Ascii.eqb c "%") && negb (Ascii.eqb c "?") && plain_text rest
  end.

(* ===================================================================== *)
(** * Part I.d  The rest of the view, and well-formed URLs *)
(* ===================================================================== *)

(** ** The loader *)

(** The node types [loader] hands to [getScans]: those of the query string,
    or all three when it names none. *)
Definition loader_nodeType (searchParams : URLSearchParams) : list string :=
  if bool_decide (0 < length (USP.getAll "nodeType" searchParams))%nat
  then USP.getAll "nodeType" searchParams
  else ["container_image"; "container"; "host"].

Section Loader.

Variable toUpperCase : string -> string.
Variable getPageFromSearchParams : URLSearchParams -> Z.
Variable getOrderFromSearchParams : URLSearchParams -> option Order.
Variable searchSecretsScan :
  SearchSearchScanReq -> ApiResult (option (list ModelScanInfo)) Results.
Variable searchSecretScanCount :
  SearchSearchScanReq -> ApiResult CountResp Results.

(** [loader]: the deferred [data] is [getScans(nodeType, searchParams)]. *)
Definition loader (searchParams : URLSearchParams) : Async Results Results :=
  let nodeType := loader_nodeType searchParams in
  getScans toUpperCase getPageFromSearchParams getOrderFromSearchParams
           searchSecretsScan searchSecretScanCount nodeType searchParams.

End Loader.

(** ** Submitting an action

    [onDeleteAction] of the confirmation modal and [onDownloadAction] of the
    row menu fill a form with the action type, the scan id and the node id
    of the row and submit it; [action] reads the three entries back. *)
Definition submit_action (actionType scanId nodeId : string) (unixTime : Z)
    (result : ApiResult unit (option string)) : string + list Effect :=
  action (Some actionType) (Some scanId) (Some nodeId) unixTime result.

(** ** The filter controls *)

(** [searchParams.has(name)]. *)
Definition URLSearchParams_has (name : string) (sp : URLSearchParams) : bool :=
  bool_decide (name ∈ sp.*1).

(** [searchParams.getAll(name).includes(value)], the [checked] state of a
    box. *)
Definition checked (name value : string) (sp : URLSearchParams) : bool :=
  bool_decide (value ∈ USP.getAll name sp).

(** [isFilterApplied]. *)
Definition isFilterApplied (searchParams : URLSearchParams) : bool :=
  URLSearchParams_has "languages" searchParams
  || URLSearchParams_has "containerImages" searchParams
  || URLSearchParams_has "containers" searchParams
  || URLSearchParams_has "nodeType" searchParams
  || URLSearchParams_has "hosts" searchParams
  || URLSearchParams_has "clusters" searchParams.

(** The parameters the filter indicator looks at. *)
Definition indicator_names : list string :=
  ["languages"; "containerImages"; "containers"; "nodeType"; "hosts"; "clusters"].

(** The [forEach] that appends the kept values again. *)
Definition append_kept (name value : string) (prevStatuses : list string)
    (prev : URLSearchParams) : URLSearchParams :=
  foldl (fun prev status => USP.append name status prev) prev
        (filter (fun status => status <> value) prevStatuses).

(** The checked branch, the same in all six boxes. *)
Definition box_check (name value : string) (prev : URLSearchParams) : URLSearchParams :=
  let prev := USP.append name value prev in
  USP.delete "page" prev.

(** The unchecked branch comes in three orders of its statements.  "Host",
    "Container" and "In Progress": delete the name, append, delete page. *)
Definition box_uncheck_page_last (name value : string) (prev : URLSearchParams)
  : URLSearchParams :=
  let prevStatuses := USP.getAll name prev in
  let prev := USP.delete name prev in
  let prev := append_kept name value prevStatuses prev in
  USP.delete "page" prev.

(** "Container Images": delete page, delete the name, append. *)
Definition box_uncheck_page_first (name value : string) (prev : URLSearchParams)
  : URLSearchParams :=
  let prevStatuses := USP.getAll name prev in
  let prev := USP.delete "page" prev in
  let prev := USP.delete name prev in
  append_kept name value prevStatuses prev.

(** "Completed" and "Error": delete the name, delete page, append. *)
Definition box_uncheck_page_middle (name value : string) (prev : URLSearchParams)
  : URLSearchParams :=
  let prevStatuses := USP.getAll name prev in
  let prev := USP.delete name prev in
  let prev := USP.delete "page" prev in
  append_kept name value prevStatuses prev.

Definition container_onCheckedChange (state : bool) (prev : URLSearchParams)
  : URLSearchParams :=
  if state then box_check "nodeType" "container" prev
  else box_uncheck_page_last "nodeType" "container" prev.

Definition container_image_onCheckedChange (state : bool) (prev : URLSearchParams)
  : URLSearchParams :=
  if state then box_check "nodeType" "container_image" prev
  else box_uncheck_page_first "nodeType" "container_image" prev.

Definition complete_onCheckedChange (state : bool) (prev : URLSearchParams)
  : URLSearchParams :=
  if state then box_check "status" "complete" prev
  else box_uncheck_page_middle "status" "complete" prev.

Definition in_progress_onCheckedChange (state : bool) (prev : URLSearchParams)
  : URLSearchParams :=
  if state then box_check "status" "in_progress" prev
  else box_uncheck_page_last "status" "in_progress" prev.

Definition error_onCheckedChange (state : bool) (prev : URLSearchParams)
  : URLSearchParams :=
  if state then box_check "status" "error" prev
  else box_uncheck_page_middle "status" "error" prev.

(** The six boxes: the parameter, the value and the handler of each. *)
Definition boxes : list (string * string * (bool -> URLSearchParams -> URLSearchParams)) :=
  [ ("nodeType", "host", host_onCheckedChange);
    ("nodeType", "container", container_onCheckedChange);
    ("nodeType", "container_image", container_image_onCheckedChange);
    ("status", "complete", complete_onCheckedChange);
    ("status", "in_progress", in_progress_onCheckedChange);
    ("status", "error", error_onCheckedChange) ].

(** Where an unchecked box leaves the query string: the entries of other
    names in place, page apart, then the values of the box's parameter
    other than its own, in their order. *)
Definition unchecked_form (name value : string) (q : URLSearchParams) : URLSearchParams :=
  USP.delete name (USP.delete "page" q)
  ++ (pair name <$> filter (fun s => s <> value) (USP.getAll name q)).

(** [onChange] of a multi-select: the parameter takes the selected values
    and the page goes.  The four selects differ in the parameter only. *)
Definition select_onChange (name : string) (value : list string)
    (prev : URLSearchParams) : URLSearchParams :=
  let prev := USP.delete name prev in
  let prev := foldl (fun prev item => USP.append name item prev) prev value in
  USP.delete "page" prev.

Definition hosts_onChange := select_onChange "hosts".
Definition containers_onChange := select_onChange "containers".
Definition containerImages_onChange := select_onChange "containerImages".
Definition clusters_onChange := select_onChange "clusters".

(** The parameters the four selects write. *)
Definition select_names : list string :=
  ["hosts"; "containers"; "containerImages"; "clusters"].

(** ** Sample failures *)

(** An error the search service may answer with: the initial results and a
    message. *)
Definition example_failure : Results :=
  {| scans := []; currentPage := 1; totalRows := 0; message := Some "bad filter" |}.

Definition failing_search (_ : SearchSearchScanReq)
  : ApiResult (option (list ModelScanInfo)) Results := ApiError example_failure.

Definition failing_count (_ : SearchSearchScanReq) : ApiResult CountResp Results :=
  ApiError example_failure.

(** ** Well-formed parts of a URL, for the console URL *)

(** A scheme of letters only. *)
Fixpoint all_letters (s : string) : bool :=
  match s with
  | EmptyString => true
  | String c rest => url.is_letter c && all_letters rest
  end.

(** A byte of a plain host name: a letter, a digit, a dot or a hyphen. *)
Definition host_byte (c : ascii) : bool :=
  url.is_letter c || url.is_digit c || url.one_of ".-" c.

(** A host name of letters, digits, dots and hyphens. *)
Fixpoint plain_host (s : string) : bool :=
  match s with
  | EmptyString => true
  | String c rest => host_byte c && plain_host rest
  end.

(* ===================================================================== *)
(** * Part II.a  Facts about the listing view *)
(* ===================================================================== *)

(** ** URLSearchParams *)

Section USPFacts.

Implicit Types (q : URLSearchParams) (name value : string).

Lemma getAll_cons name p q :
  USP.getAll name (p :: q) =
  if decide (p.1 = name) then p.2 :: USP.getAll name q else USP.getAll name q.
Proof.
  unfold USP.getAll. rewrite filter_cons. destruct (decide (p.1 = name)); reflexivity.
Qed.

Lemma getAll_app name q1 q2 :
  USP.getAll name (q1 ++ q2) = USP.getAll name q1 ++ USP.getAll name q2.
Proof. unfold USP.getAll. by rewrite filter_app, fmap_app. Qed.

Lemma delete_cons name p q :
  USP.delete name (p :: q) =
  if decide (p.1 = name) then USP.delete name q else p :: USP.delete name q.
Proof.
  unfold USP.delete. rewrite filter_cons.
  destruct (decide (p.1 = name)), (decide (p.1 <> name)); naive_solver.
Qed.

Lemma delete_app name q1 q2 :
  USP.delete name (q1 ++ q2) = USP.delete name q1 ++ USP.delete name q2.
Proof. unfold USP.delete. apply filter_app. Qed.

Lemma getAll_delete_eq name q : USP.getAll name (USP.delete name q) = [].
Proof.
  induction q as [|p q IH]; [reflexivity|].
  rewrite delete_cons. destruct (decide (p.1 = name)) as [E|NE]; [exact IH|].
  rewrite getAll_cons. destruct (decide (p.1 = name)); [contradiction|exact IH].
Qed.

Lemma getAll_delete_ne name name' q :
  name <> name' -> USP.getAll name (USP.delete name' q) = USP.getAll name q.
Proof.
  intros Hne. induction q as [|p q IH]; [reflexivity|].
  rewrite delete_cons, getAll_cons.
  destruct (decide (p.1 = name')) as [E|NE], (decide (p.1 = name)) as [E'|NE'];
    try congruence.
  - rewrite getAll_cons. destruct (decide (p.1 = name)); [|contradiction]. by rewrite IH.
  - rewrite getAll_cons. destruct (decide (p.1 = name)); [contradiction|]. exact IH.
Qed.

Lemma delete_idem name q : USP.delete name (USP.delete name q) = USP.delete name q.
Proof.
  induction q as [|p q IH]; [reflexivity|].
  rewrite delete_cons. destruct (decide (p.1 = name)) as [E|NE]; [exact IH|].
  rewrite delete_cons. destruct (decide (p.1 = name)); [contradiction|]. by rewrite IH.
Qed.

Lemma delete_comm name name' q :
  USP.delete name (USP.delete name' q) = USP.delete name' (USP.delete name q).
Proof.
  induction q as [|p q IH]; [reflexivity|].
  rewrite !delete_cons.
  destruct (decide (p.1 = name')), (decide (p.1 = name)); rewrite ?delete_cons;
    repeat case_decide; try congruence.
Qed.

Lemma delete_no_entry name q : USP.getAll name q = [] -> USP.delete name q = q.
Proof.
  induction q as [|p q IH]; [reflexivity|].
  rewrite getAll_cons, delete_cons. destruct (decide (p.1 = name)); [discriminate|].
  intros H. by rewrite IH.
Qed.

(** The [forEach] of appends adds the values at the end, in their order. *)
Lemma foldl_append name (l : list string) q :
  foldl (fun prev v => USP.append name v prev) q l = q ++ (pair name <$> l).
Proof.
  revert q. induction l as [|v l IH]; intros q; simpl.
  - by rewrite app_nil_r.
  - rewrite IH. unfold USP.append. by rewrite <- app_assoc.
Qed.

Lemma getAll_pairs name name' (l : list string) :
  USP.getAll name (pair name' <$> l) = if decide (name' = name) then l else [].
Proof.
  induction l as [|v l IH].
  - by destruct (decide (name' = name)).
  - rewrite fmap_cons, getAll_cons, IH. simpl. by destruct (decide (name' = name)).
Qed.

Lemma delete_pairs_ne name name' (l : list string) :
  name' <> name -> USP.delete name (pair name' <$> l) = pair name' <$> l.
Proof.
  intros Hne. apply delete_no_entry. rewrite getAll_pairs.
  destruct (decide (name' = name)); [contradiction|reflexivity].
Qed.

Lemma entries_of_name name q :
  pair name <$> USP.getAll name q = filter (fun p => p.1 = name) q.
Proof.
  induction q as [|[k v] q IH]; [reflexivity|].
  rewrite getAll_cons, filter_cons. simpl.
  destruct (decide (k = name)) as [->|]; [rewrite fmap_cons|]; by rewrite IH.
Qed.

Lemma getAll_set_eq name value q : USP.getAll name (USP.set name value q) = [value].
Proof.
  induction q as [|p q IH]; simpl.
  - rewrite getAll_cons. simpl. destruct (decide (name = name)); [reflexivity|contradiction].
  - case_bool_decide as E.
    + rewrite getAll_cons. simpl. destruct (decide (name = name)); [|contradiction].
      by rewrite getAll_delete_eq.
    + rewrite getAll_cons. destruct (decide (p.1 = name)); [contradiction|exact IH].
Qed.

Lemma getAll_set_ne name name' value q :
  name <> name' -> USP.getAll name (USP.set name' value q) = USP.getAll name q.
Proof.
  intros Hne. induction q as [|p q IH]; simpl.
  - rewrite getAll_cons. simpl. destruct (decide (name' = name)); [congruence|reflexivity].
  - case_bool_decide as E.
    + rewrite !getAll_cons. simpl.
      destruct (decide (name' = name)), (decide (p.1 = name)); try congruence.
      by apply getAll_delete_ne.
    + rewrite !getAll_cons. destruct (decide (p.1 = name)); by rewrite IH.
Qed.

Lemma filter_not_host (l : list string) :
  "host" ∉ l -> filter (fun s => s <> "host") l = l.
Proof.
  induction l as [|s l IH]; [reflexivity|].
  intros H. apply not_elem_of_cons in H as [H1 H2].
  rewrite filter_cons. destruct (decide (s <> "host")); [|naive_solver]. by rewrite IH.
Qed.

(** ** The host checkbox *)

Lemma host_check_eq q :
  host_onCheckedChange true q = without_page q ++ [("nodeType", "host")].
Proof.
  unfold host_onCheckedChange, without_page, USP.append. by rewrite delete_app.
Qed.

Lemma host_uncheck_eq q :
  host_onCheckedChange false q =
  USP.delete "page" (USP.delete "nodeType" q)
  ++ (pair "nodeType" <$> filter (fun s => s <> "host") (USP.getAll "nodeType" q)).
Proof.
  unfold host_onCheckedChange. rewrite foldl_append, delete_app.
  by rewrite delete_pairs_ne.
Qed.

(** Checking and then unchecking, for any query string: the entries other
    than nodeType and page stay in place, and the node types other than
    host follow them. *)
Lemma host_uncheck_check q :
  host_onCheckedChange false (host_onCheckedChange true q) =
  USP.delete "nodeType" (without_page q)
  ++ (pair "nodeType" <$> filter (fun s => s <> "host") (USP.getAll "nodeType" q)).
Proof.
  rewrite host_uncheck_eq, host_check_eq. unfold without_page.
  rewrite !delete_app, getAll_app, filter_app.
  rewrite (getAll_delete_ne "nodeType" "page") by discriminate.
  change (USP.delete "page" (USP.delete "nodeType" [("nodeType", "host")]))
    with (@nil (string * string)).
  change (filter _ (USP.getAll "nodeType" [("nodeType", "host")])) with (@nil string).
  rewrite !app_nil_r.
  by rewrite (delete_comm "page" "nodeType"), delete_idem.
Qed.

Lemma sorting_keeps_page (s : list ColumnSort) q :
  USP.getAll "page" (onSortingChange s q) = USP.getAll "page" q.
Proof.
  destruct s as [|first s]; simpl.
  - by rewrite !getAll_delete_ne.
  - by rewrite !getAll_set_ne.
Qed.

Lemma pagination_sets_page (n : Z) q :
  USP.getAll "page" (onPaginationChange n q) = [String_of_number n].
Proof. apply getAll_set_eq. Qed.

(** C9, as amended.  Let the host box be unchecked in the query string [q]
    (no nodeType entry is host).  Checking it and unchecking it again gives
    [q] without its page entries and with its nodeType entries moved to the
    end, in their order; so every parameter has the values it has in [q]
    without page, and the result is that very list when [q] has no nodeType
    entry.  The page entries go at the first toggle: after it none is left
    and the second removal changes nothing.  A change of the sort leaves the
    page entries as they are, and a change of the page leaves exactly one. *)
Theorem host_toggle_round_trip q :
  "host" ∉ USP.getAll "nodeType" q ->
  let q1 := host_onCheckedChange true q in
  let q2 := host_onCheckedChange false q1 in
  q2 = USP.delete "nodeType" (without_page q) ++ filter (fun p => p.1 = "nodeType") q
  /\ (forall name, USP.getAll name q2 = USP.getAll name (without_page q))
  /\ (USP.getAll "nodeType" q = [] -> q2 = without_page q)
  /\ USP.getAll "page" q1 = []
  /\ USP.delete "page" q1 = q1
  /\ (forall s, USP.getAll "page" (onSortingChange s q) = USP.getAll "page" q)
  /\ (forall n, USP.getAll "page" (onPaginationChange n q) = [String_of_number n]).
Proof.
  intros Hhost q1 q2.
  assert (Hq2 : q2 = USP.delete "nodeType" (without_page q)
                     ++ filter (fun p => p.1 = "nodeType") q).
  { unfold q2, q1. rewrite host_uncheck_check, filter_not_host by exact Hhost.
    by rewrite entries_of_name. }
  assert (Hpage : USP.getAll "page" q1 = []).
  { unfold q1. rewrite host_check_eq, getAll_app. unfold without_page.
    by rewrite getAll_delete_eq. }
  split; [exact Hq2|]. split; [|split; [|split; [exact Hpage|split; [|split]]]].
  - intros name. rewrite Hq2, getAll_app, <- entries_of_name, getAll_pairs.
    unfold without_page.
    destruct (decide ("nodeType" = name)) as [<-|Hne].
    + rewrite getAll_delete_eq. simpl. by rewrite getAll_delete_ne.
    + rewrite getAll_delete_ne by congruence. by rewrite app_nil_r.
  - intros Hnone. rewrite Hq2, <- entries_of_name, Hnone. simpl. rewrite app_nil_r.
    apply delete_no_entry. unfold without_page. by rewrite getAll_delete_ne.
  - by apply delete_no_entry.
  - intros s. apply sorting_keeps_page.
  - intros n. apply pagination_sets_page.
Qed.

Lemma host_toggle_round_trip_witness :
  ("host" ∉ USP.getAll "nodeType" example_query)
  /\ host_onCheckedChange false (host_onCheckedChange true example_query)
     = [("status", "complete"); ("nodeType", "container")].
Proof.
  assert (H : "host" ∉ USP.getAll "nodeType" example_query).
  { compute_done. }
  split; [exact H|].
  destruct (host_toggle_round_trip example_query H) as [Heq _].
  rewrite Heq. reflexivity.
Defined.

(** C9, as stated, fails on a query string that has a node type before
    another entry: the round trip moves the node type behind it, so the
    result is not [q] without its page entries. *)
Lemma host_toggle_reorders :
  host_onCheckedChange false
    (host_onCheckedChange true [("nodeType", "container"); ("status", "complete")])
  = [("status", "complete"); ("nodeType", "container")]
  /\ without_page [("nodeType", "container"); ("status", "complete")]
     = [("nodeType", "container"); ("status", "complete")]
  /\ [("status", "complete"); ("nodeType", "container")]
     <> [("nodeType", "container"); ("status", "complete")].
Proof. split; [reflexivity|]. split; [reflexivity|]. discriminate. Qed.

End USPFacts.

(** ** The request [getScans] builds *)

Lemma when_nonempty_nil : when_nonempty [] = None.
Proof. reflexivity. Qed.

Lemma when_nonempty_cons (x : string) (l : list string) :
  when_nonempty (x :: l) = Some (x :: l).
Proof. unfold when_nonempty. rewrite bool_decide_eq_true_2; [reflexivity|simpl; lia]. Qed.

(** One merge step: the ids offered so far, then the new ones. *)
Lemma concat_node_id_lookup (ids so_far : list string) (m : FilterIn) :
  m !! "node_id" = when_nonempty so_far ->
  concat_node_id ids m !! "node_id" = when_nonempty (so_far ++ ids).
Proof.
  intros Hm. unfold concat_node_id.
  destruct ids as [|i ids].
  - rewrite bool_decide_eq_false_2 by (simpl; lia). by rewrite app_nil_r.
  - rewrite bool_decide_eq_true_2 by (simpl; lia). rewrite lookup_insert_eq, Hm.
    destruct so_far as [|s so_far].
    + rewrite when_nonempty_nil. simpl. by rewrite when_nonempty_cons.
    + rewrite when_nonempty_cons. simpl. by rewrite when_nonempty_cons.
Qed.

Lemma concat_node_id_other (ids : list string) (m : FilterIn) (k : string) :
  k <> "node_id" -> concat_node_id ids m !! k = m !! k.
Proof.
  intros Hk. unfold concat_node_id. case_bool_decide; [|reflexivity].
  by rewrite lookup_insert_ne.
Qed.

Lemma guarded_insert_lookup (k : string) (l : list string) (m : FilterIn) :
  m !! k = None ->
  (if bool_decide (0 < length l)%nat then <[k := l]> m else m) !! k = when_nonempty l.
Proof.
  intros Hm. unfold when_nonempty. case_bool_decide; [apply lookup_insert_eq|exact Hm].
Qed.

Section GetScansFacts.

Variable toUpperCase : string -> string.
Variable getPageFromSearchParams : URLSearchParams -> Z.
Variable getOrderFromSearchParams : URLSearchParams -> option Order.
Variable searchSecretsScan :
  SearchSearchScanReq -> ApiResult (option (list ModelScanInfo)) Results.
Variable searchSecretScanCount :
  SearchSearchScanReq -> ApiResult CountResp Results.

Local Abbreviation request_of :=
  (scanRequestParams toUpperCase getPageFromSearchParams getOrderFromSearchParams).
Local Abbreviation run :=
  (getScans toUpperCase getPageFromSearchParams getOrderFromSearchParams
            searchSecretsScan searchSecretScanCount).

Lemma nodeFilters_node_id (nodeTypes : list string) (searchParams : URLSearchParams) :
  nodeFilters nodeTypes searchParams !! "node_id" =
  when_nonempty (USP.getAll "hosts" searchParams
                 ++ USP.getAll "containers" searchParams
                 ++ USP.getAll "containerImages" searchParams
                 ++ USP.getAll "languages" searchParams).
Proof.
  unfold nodeFilters, getHostsSearch, getContainersSearch, getContainerImagesSearch,
    getLanguagesSearch.
  cbv zeta.
  set (m0 := <["node_type" := nodeTypes]> (∅ : FilterIn)).
  assert (H0 : m0 !! "node_id" = when_nonempty []) by done.
  pose proof (concat_node_id_lookup (USP.getAll "hosts" searchParams) _ _ H0) as H1.
  pose proof (concat_node_id_lookup (USP.getAll "containers" searchParams) _ _ H1) as H2.
  pose proof (concat_node_id_lookup (USP.getAll "containerImages" searchParams) _ _ H2) as H3.
  pose proof (concat_node_id_lookup (USP.getAll "languages" searchParams) _ _ H3) as H4.
  simpl in H4. rewrite <- !app_assoc in H4.
  case_bool_decide; [rewrite lookup_insert_ne by done|]; exact H4.
Qed.

Lemma nodeFilters_cluster (nodeTypes : list string) (searchParams : URLSearchParams) :
  nodeFilters nodeTypes searchParams !! "kubernetes_cluster_id" =
  when_nonempty (USP.getAll "clusters" searchParams).
Proof.
  unfold nodeFilters. cbv zeta. apply guarded_insert_lookup.
  by rewrite !concat_node_id_other.
Qed.

Lemma nodeFilters_node_type (nodeTypes : list string) (searchParams : URLSearchParams) :
  nodeFilters nodeTypes searchParams !! "node_type" = Some nodeTypes.
Proof.
  unfold nodeFilters. cbv zeta.
  case_bool_decide; [rewrite lookup_insert_ne by done|];
    by rewrite !concat_node_id_other.
Qed.

(** C1.  In the request [getScans] sends first, the node filters' node_id
    key holds the hosts, containers, containerImages and languages values of
    the query string, in that order (and is absent when there are none);
    the languages are also the trigger_action match filter of the scan
    filters; the clusters are the kubernetes_cluster_id key, apart from
    node_id; and the status key holds the status values upper-cased. *)
Theorem getScans_filters (nodeTypes : list string) (searchParams : URLSearchParams) :
  let req := request_of nodeTypes searchParams in
  let node_in := contains_filter (filters (node_filters req)) in
  let scan_in := contains_filter (filters (scan_filters req)) in
  (run nodeTypes searchParams []).1 !! 0%nat = Some (searchSecretsScan_call req)
  /\ node_in !! "node_id" =
       when_nonempty (USP.getAll "hosts" searchParams
                      ++ USP.getAll "containers" searchParams
                      ++ USP.getAll "containerImages" searchParams
                      ++ USP.getAll "languages" searchParams)
  /\ match_filter (filters (scan_filters req)) !! "trigger_action" =
       when_nonempty (USP.getAll "languages" searchParams)
  /\ node_in !! "kubernetes_cluster_id" =
       when_nonempty (USP.getAll "clusters" searchParams)
  /\ node_in !! "node_type" = Some nodeTypes
  /\ scan_in !! "status" =
       when_nonempty (toUpperCase <$> USP.getAll "status" searchParams).
Proof.
  intros req node_in scan_in.
  split; [|split; [|split; [|split; [|split]]]].
  - unfold getScans, async_bind, makeRequest. simpl.
    destruct (searchSecretsScan _) as [result|e]; [|reflexivity].
    destruct (searchSecretScanCount _) as [c|e]; [|reflexivity].
    by destruct result.
  - apply nodeFilters_node_id.
  - unfold req. simpl. unfold languageFilters, getLanguagesSearch.
    by apply guarded_insert_lookup.
  - apply nodeFilters_cluster.
  - apply nodeFilters_node_type.
  - unfold scan_in, req. simpl. unfold scanFilters, getStatusSearch.
    by apply guarded_insert_lookup.
Qed.

(** A concrete request: hosts h1 and h2, a container, a language, a cluster
    and two status values. *)
Example scanRequestParams_example :
  let req := scanRequestParams toUpperCase_ascii example_page example_order ["host"]
               [("hosts", "h1"); ("status", "complete"); ("languages", "go");
                ("containers", "c1"); ("hosts", "h2"); ("clusters", "k1");
                ("status", "in_progress")] in
  contains_filter (filters (node_filters req)) !! "node_id"
    = Some ["h1"; "h2"; "c1"; "go"]
  /\ contains_filter (filters (node_filters req)) !! "kubernetes_cluster_id"
     = Some ["k1"]
  /\ match_filter (filters (scan_filters req)) !! "trigger_action" = Some ["go"]
  /\ contains_filter (filters (scan_filters req)) !! "status"
     = Some ["COMPLETE"; "IN_PROGRESS"]
  /\ window req = {| offset := 30; window_size := 15 |}.
Proof. repeat split; vm_compute; reflexivity. Qed.

(** ** The count request and the total *)

(** C2, as amended.  When the page request resolves with a value, the
    loader issues the count request next, with the node and scan filters
    and the offset of the page request and the window size 10 * 15 = 150.
    When the count request resolves with a count [c] too, then for a page
    result that is a list of rows the loader returns
    totalRows = page * 15 + c with the page as current page and the rows
    normalised, and for the page result null it returns the initial
    results, whose totalRows is 0. *)
Theorem getScans_count_and_total
    (nodeTypes : list string) (searchParams : URLSearchParams)
    (result : option (list ModelScanInfo)) :
  let req := request_of nodeTypes searchParams in
  let countReq := countRequestParams req in
  let page := getPageFromSearchParams searchParams in
  searchSecretsScan req = ApiValue result ->
  (run nodeTypes searchParams []).1
    = [searchSecretsScan_call req; searchSecretScanCount_call countReq]
  /\ node_filters countReq = node_filters req
  /\ scan_filters countReq = scan_filters req
  /\ offset (window countReq) = offset (window req)
  /\ window_size (window countReq) = 10 * window_size (window req)
  /\ window_size (window countReq) = 150
  /\ forall c, searchSecretScanCount countReq = ApiValue c ->
       (run nodeTypes searchParams []).2 =
       inr match result with
           | Some rows =>
               {| scans := normalize <$> rows;
                  currentPage := page;
                  totalRows := page * PAGE_SIZE + count c;
                  message := None |}
           | None =>
               {| scans := []; currentPage := 1; totalRows := 0; message := None |}
           end.
Proof.
  intros req countReq page Hpage.
  assert (Htrace : (run nodeTypes searchParams []).1
                   = [searchSecretsScan_call req; searchSecretScanCount_call countReq]).
  { unfold getScans, async_bind, makeRequest. fold req. rewrite Hpage. fold countReq.
    simpl. destruct (searchSecretScanCount countReq) as [c|e]; [|reflexivity].
    by destruct result. }
  repeat split; try exact Htrace.
  intros c Hc. unfold getScans, async_bind, makeRequest. fold req. rewrite Hpage.
  fold countReq. simpl. rewrite Hc. by destruct result.
Qed.

End GetScansFacts.

Lemma getScans_count_and_total_witness :
  example_search (Some [example_row])
    (scanRequestParams toUpperCase_ascii example_page example_order
       ["host"] example_query)
  = ApiValue (Some [example_row])
  /\ (getScans toUpperCase_ascii example_page example_order
        (example_search (Some [example_row])) example_count
        ["host"] example_query []).2
     = inr {| scans := [normalize example_row]; currentPage := 2;
              totalRows := 70; message := None |}.
Proof.
  split; [reflexivity|].
  pose proof (getScans_count_and_total toUpperCase_ascii example_page example_order
                (example_search (Some [example_row])) example_count
                ["host"] example_query (Some [example_row]) eq_refl) as H.
  destruct H as (_ & _ & _ & _ & _ & _ & H).
  exact (H {| count := 40 |} eq_refl).
Defined.

(** C2, as stated, fails when the page request resolves with null: for
    page 2 and a count of 40 the loader returns totalRows 0 (and current
    page 1), where 2 * 15 + 40 is 70. *)
Lemma getScans_null_page_total :
  (getScans toUpperCase_ascii example_page example_order
     (example_search None) example_count
     ["host"] example_query []).2
  = inr {| scans := []; currentPage := 1; totalRows := 0; message := None |}
  /\ example_page example_query * PAGE_SIZE + 40 = 70
  /\ 0 <> example_page example_query * PAGE_SIZE + 40.
Proof. split; [reflexivity|]. split; [reflexivity|]. discriminate. Qed.

(** ** The row normaliser *)

Lemma default_zero_lookup_eq (k : string) (m : gmap string Z) :
  default_zero k m !! k = Some (default 0 (m !! k)).
Proof. unfold default_zero. apply lookup_insert_eq. Qed.

Lemma default_zero_lookup_ne (k k' : string) (m : gmap string Z) :
  k <> k' -> default_zero k m !! k' = m !! k'.
Proof. intros Hne. unfold default_zero. by apply lookup_insert_ne. Qed.

(** After the five assignments a severity key holds its old count, or zero
    if it had none. *)
Lemma normalized_count (k : string) (m : gmap string Z) :
  k ∈ ["critical"; "high"; "medium"; "low"; "unknown"] ->
  default_zero "unknown"
    (default_zero "low"
       (default_zero "medium"
          (default_zero "high" (default_zero "critical" m)))) !! k
  = Some (default 0 (m !! k)).
Proof.
  intros Hk.
  repeat (apply elem_of_cons in Hk as [->|Hk]);
    [..|by apply elem_of_nil in Hk];
    repeat first [ rewrite default_zero_lookup_eq
                 | rewrite default_zero_lookup_ne by discriminate ];
    reflexivity.
Qed.

(** C3.  For every row, each of the five counts of the normalised row is
    the row's count, or zero where the row has none, and the total is the
    sum of critical, high, medium and low, whatever unknown is; no count and
    no total is left undefined.  The row with high 2, low 1 and nothing
    else becomes critical 0, high 2, medium 0, low 1, unknown 0, total 3. *)
Theorem normalize_counts (row : ModelScanInfo) :
  let count_of k := default 0 (severity_counts row !! k) in
  critical (normalize row) = Some (count_of "critical")
  /\ high (normalize row) = Some (count_of "high")
  /\ medium (normalize row) = Some (count_of "medium")
  /\ low (normalize row) = Some (count_of "low")
  /\ unknown (normalize row) = Some (count_of "unknown")
  /\ total (normalize row) =
       Some (count_of "critical" + count_of "high" + count_of "medium" + count_of "low")
  /\ (critical (normalize example_row), high (normalize example_row),
      medium (normalize example_row), low (normalize example_row),
      unknown (normalize example_row), total (normalize example_row))
     = (Some 0, Some 2, Some 0, Some 1, Some 0, Some 3).
Proof.
  intros count_of. unfold normalize. cbv zeta. simpl.
  rewrite !normalized_count by set_solver.
  repeat split.
Qed.

(** ** The delete action *)

Lemma truthy_Some (v : option string) : truthy v = true -> v = Some (default "" v).
Proof. destruct v as [s|]; [reflexivity|discriminate]. Qed.

(** A failure the error handler takes up (400 or 409) always carries a
    message, the empty one if the body has none. *)
Lemma handled_failure_has_message (status : Z) (body_message payload : option string) :
  action_errorHandler status body_message = Some payload ->
  (status = 400 \/ status = 409) /\ payload = Some (default "" body_message).
Proof.
  unfold action_errorHandler. case_bool_decide as Hstatus; [|discriminate].
  intros [= <-]. by split.
Qed.

(** C8.  For a delete action with a scan id and a node id, whatever the
    delete request resolves to, the action ends with the success toast
    'Scan deleted successfully', shown once; an error toast comes before it
    exactly when the result is an error that carries a message, and it shows
    that message. *)
Theorem delete_always_reports_success
    (scanId nodeId : option string) (unixTime : Z)
    (result : ApiResult unit (option string)) :
  truthy scanId = true -> truthy nodeId = true ->
  exists effects,
    action (Some "delete") scanId nodeId unixTime result = inr effects
    /\ last effects = Some (toast_success "Scan deleted successfully")
    /\ length (filter (fun e => e = toast_success "Scan deleted successfully") effects)
       = 1%nat
    /\ (forall msg, toast_error msg ∈ effects <-> result = ApiError (Some msg)).
Proof.
  intros Hscan Hnode. unfold action. rewrite Hscan, Hnode. simpl.
  eexists. split; [reflexivity|].
  destruct result as [[]|[m|]]; simpl.
  - split; [reflexivity|]. split; [reflexivity|].
    intros msg. split; [|discriminate].
    intros H. repeat (apply elem_of_cons in H as [H|H]; [discriminate|]).
    by apply elem_of_nil in H.
  - split; [reflexivity|]. split; [reflexivity|].
    intros msg. split.
    + intros H. apply elem_of_cons in H as [H|H]; [discriminate|].
      apply elem_of_cons in H as [H|H]; [by inversion H|].
      apply elem_of_cons in H as [H|H]; [discriminate|]. by apply elem_of_nil in H.
    + intros H. inversion H. set_solver.
  - split; [reflexivity|]. split; [reflexivity|].
    intros msg. split; [|discriminate].
    intros H. repeat (apply elem_of_cons in H as [H|H]; [discriminate|]).
    by apply elem_of_nil in H.
Qed.

Lemma delete_always_reports_success_witness :
  truthy (Some "scan-1") = true /\ truthy (Some "node-1") = true
  /\ exists effects,
       action (Some "delete") (Some "scan-1") (Some "node-1") 0 (ApiError (Some "conflict"))
       = inr effects
       /\ last effects = Some (toast_success "Scan deleted successfully").
Proof.
  split; [reflexivity|]. split; [reflexivity|].
  destruct (delete_always_reports_success (Some "scan-1") (Some "node-1") 0
              (ApiError (Some "conflict")) eq_refl eq_refl)
    as (effects & Hrun & Hlast & _).
  exists effects. split; [exact Hrun|exact Hlast].
Defined.

(* ===================================================================== *)
(** * Part II.b  Facts about the settings handler *)
(* ===================================================================== *)

Section HandlerFacts.

Variables (h : Handler) (r : Request) (db : Postgres).
Variables (id : Z) (key : string) (v : RequestValue).

Local Abbreviation req := {| req_ID := id; req_Key := key; req_Value := v |}.

Hypothesis Havailable : available db = true.
Hypothesis Hid : ParseInt (URLParam_id r) = inr id.
Hypothesis Hbody : DecodeJSON r = inr (key, v).

(** A request that reaches the validator and is refused by it. *)
Lemma run_validator_refuses (err : string) :
  Validator_Struct h req = Some err ->
  UpdateGlobalSettings_run h r db = inl (respondError (ValidatorError err)).
Proof.
  intros Hv. unfold UpdateGlobalSettings_run, PostgresClient.
  rewrite Havailable, Hid, Hbody. simpl. by rewrite Hv.
Qed.

(** A valid request whose key has no row. *)
Lemma run_no_row :
  Validator_Struct h req = None ->
  setting db !! key = None ->
  UpdateGlobalSettings_run h r db
  = inl (respondError (Unwrapped "sql: no rows in result set")).
Proof.
  intros Hv Hrow. unfold UpdateGlobalSettings_run, PostgresClient, GetSettingByKey.
  rewrite Havailable, Hid, Hbody. simpl. rewrite Hv. simpl. by rewrite Hrow.
Qed.

(** A valid request whose key has a row: the id check, the switch and the
    update decide. *)
Lemma run_with_row (row : SettingRow) :
  Validator_Struct h req = None ->
  setting db !! key = Some row ->
  UpdateGlobalSettings_run h r db =
  if negb (id =? row_ID row) then
    inl (respondError (ValidatorError "Key: 'SettingUpdateRequest.ID' Error:invalid"))
  else
    match switch_Key (current_of key row) req with
    | inl err => inl (respondError err)
    | inr value => inr (<[key := updated_row id row value]> (setting db))
    end.
Proof.
  intros Hv Hrow. unfold UpdateGlobalSettings_run, PostgresClient, GetSettingByKey.
  rewrite Havailable, Hid, Hbody. simpl. rewrite Hv. simpl. rewrite Hrow.
  simpl. destruct (id =? row_ID row); simpl; [|reflexivity].
  fold (current_of key row).
  destruct (switch_Key (current_of key row) req) as [err|value]; [reflexivity|].
  unfold Update. simpl. by rewrite Hrow.
Qed.

End HandlerFacts.

(** Whatever the handler answers with an error, it leaves the store as it
    was. *)
Lemma error_leaves_store (h : Handler) (r : Request) (db : Postgres) (err : HandlerError) :
  (UpdateGlobalSettings h r db).1 = respondError err ->
  (UpdateGlobalSettings h r db).2 = db.
Proof.
  unfold UpdateGlobalSettings.
  destruct (UpdateGlobalSettings_run h r db); [reflexivity|discriminate].
Qed.

(** Every path of the handler ends in an error response with the store
    untouched, or in 204. *)
Lemma run_responses (h : Handler) (r : Request) (db : Postgres) :
  (exists err, UpdateGlobalSettings h r db = (respondError err, db))
  \/ (exists table, UpdateGlobalSettings_run h r db = inr table
                    /\ UpdateGlobalSettings h r db
                       = (WriteHeader StatusNoContent,
                          {| available := available db; setting := table |})).
Proof.
  unfold UpdateGlobalSettings.
  destruct (UpdateGlobalSettings_run h r db) as [resp|table] eqn:Hrun.
  - left. revert Hrun. unfold UpdateGlobalSettings_run.
    repeat match goal with
           | |- context [match ?x with _ => _ end] => destruct x
           | |- context [if ?x then _ else _] => destruct x
           end; intros [= <-]; eauto.
  - right. eauto.
Qed.

(** ** Key and id that do not match *)

(** C4, as amended.  Let the request carry the id of a stored row and a key
    other than that row's key, in a table whose ids are unique.  Then no
    write occurs and the response is an error.  With the store available it
    is the validator's error when the validator refuses the request; the
    validation error on the id when the request is valid and its key has a
    row; and the store's row-not-found error, passed on as it is, when the
    request is valid and its key has no row. *)
Theorem key_mismatch_no_write
    (h : Handler) (r : Request) (db : Postgres)
    (id : Z) (key : string) (v : RequestValue) (key0 : string) (row0 : SettingRow) :
  ids_unique (setting db) ->
  ParseInt (URLParam_id r) = inr id ->
  DecodeJSON r = inr (key, v) ->
  setting db !! key0 = Some row0 -> row_ID row0 = id -> key0 <> key ->
  let req := {| req_ID := id; req_Key := key; req_Value := v |} in
  let out := UpdateGlobalSettings h r db in
  out.2 = db
  /\ (exists err, out.1 = respondError err)
  /\ (available db = true ->
      (forall err, Validator_Struct h req = Some err ->
                   out.1 = respondError (ValidatorError err))
      /\ (Validator_Struct h req = None -> is_Some (setting db !! key) ->
          out.1 = respondError
                    (ValidatorError "Key: 'SettingUpdateRequest.ID' Error:invalid"))
      /\ (Validator_Struct h req = None -> setting db !! key = None ->
          out.1 = respondError (Unwrapped "sql: no rows in result set"))).
Proof.
  intros Huniq Hid Hbody Hrow0 Hid0 Hkey req out.
  assert (Hcases : available db = true ->
      (forall err, Validator_Struct h req = Some err ->
                   out.1 = respondError (ValidatorError err))
      /\ (Validator_Struct h req = None -> is_Some (setting db !! key) ->
          out.1 = respondError
                    (ValidatorError "Key: 'SettingUpdateRequest.ID' Error:invalid"))
      /\ (Validator_Struct h req = None -> setting db !! key = None ->
          out.1 = respondError (Unwrapped "sql: no rows in result set"))).
  { intros Hav. unfold out, UpdateGlobalSettings. split; [|split].
    - intros err Hv. by rewrite (run_validator_refuses h r db id key v Hav Hid Hbody err Hv).
    - intros Hv [row Hrow].
      rewrite (run_with_row h r db id key v Hav Hid Hbody row Hv Hrow).
      destruct (id =? row_ID row) eqn:E; [|reflexivity].
      apply Z.eqb_eq in E. exfalso. apply Hkey.
      apply (Huniq key0 key row0 row Hrow0 Hrow). congruence.
    - intros Hv Hnone. by rewrite (run_no_row h r db id key v Hav Hid Hbody Hv Hnone). }
  assert (Herr : exists err, out.1 = respondError err).
  { destruct (available db) eqn:Hav.
    - destruct (Hcases eq_refl) as (Hrefused & Hrow & Hnone).
      destruct (Validator_Struct h req) as [err|] eqn:Hv; [eauto|].
      destruct (setting db !! key) as [row|] eqn:Hlook; eauto.
    - unfold out, UpdateGlobalSettings, UpdateGlobalSettings_run, PostgresClient.
      rewrite Hav. simpl. eauto. }
  split; [|split; [exact Herr|exact Hcases]].
  destruct Herr as [err Herr]. by apply error_leaves_store with err.
Qed.

Lemma example_db_ids_unique : ids_unique (setting example_db).
Proof.
  intros k1 k2 r1 r2 H1 H2 Hids. simpl in H1, H2.
  repeat (rewrite lookup_insert in H1; case_decide; simplify_eq);
    repeat (rewrite lookup_insert in H2; case_decide; simplify_eq);
    try reflexivity; try discriminate.
Qed.

Lemma key_mismatch_no_write_witness :
  ids_unique (setting example_db)
  /\ (UpdateGlobalSettings example_handler
        (example_request "1" InactiveNodesDeleteScanResultsKey (ReqFloat64 float_7_6))
        example_db).2 = example_db.
Proof.
  split; [exact example_db_ids_unique|].
  apply (key_mismatch_no_write example_handler
           (example_request "1" InactiveNodesDeleteScanResultsKey (ReqFloat64 float_7_6))
           example_db 1 InactiveNodesDeleteScanResultsKey (ReqFloat64 float_7_6)
           ConsoleURLSettingKey console_row example_db_ids_unique);
    [reflexivity|reflexivity|reflexivity|reflexivity|discriminate].
Defined.

(** C4, as stated, fails when the request's key has no row: the row with
    id 1 is the console URL's, the request names id 1 and the retention
    key, and the answer is the store's lookup error, not a validation
    error. *)
Lemma key_mismatch_lookup_error :
  setting console_only_db !! ConsoleURLSettingKey = Some console_row
  /\ row_ID console_row = 1
  /\ ConsoleURLSettingKey <> InactiveNodesDeleteScanResultsKey
  /\ UpdateGlobalSettings example_handler
       (example_request "1" InactiveNodesDeleteScanResultsKey (ReqFloat64 float_7_6))
       console_only_db
     = (respondError (Unwrapped "sql: no rows in result set"), console_only_db).
Proof.
  split; [reflexivity|]. split; [reflexivity|]. split; [discriminate|].
  vm_compute. reflexivity.
Qed.

(** ** The console URL *)

(** What the switch does with a string under the console URL key: the
    parser decides, and an accepted value is stored as scheme, "://", host. *)
Lemma switch_console_url (row : SettingRow) (id : Z) (s : string) :
  switch_Key (current_of ConsoleURLSettingKey row)
             {| req_ID := id; req_Key := ConsoleURLSettingKey; req_Value := ReqString s |}
  = match url.ParseRequestURI s with
    | inl _ => inl (ValidatorError "Key: 'SettingUpdateRequest.Value' Error:must be url")
    | inr parsedUrl =>
        inr (StoredString (url.Scheme parsedUrl +:+ "://" +:+ url.Host parsedUrl))
    end.
Proof. reflexivity. Qed.


(** The spec's example: path and query are dropped. *)
Lemma console_url_example :
  url.ParseRequestURI "https://example.com/path?x=1"
  = inr {| url.Scheme := "https"; url.Opaque := ""; url.User := None;
           url.Host := "example.com"; url.Path := "/path"; url.OmitHost := false;
           url.ForceQuery := false; url.RawQuery := "x=1" |}
  /\ setting
       (UpdateGlobalSettings example_handler
          (example_request "1" ConsoleURLSettingKey
             (ReqString "https://example.com/path?x=1"))
          example_db).2 !! ConsoleURLSettingKey
     = Some (updated_row 1 console_row (StoredString "https://example.com")).
Proof. split; vm_compute; reflexivity. Qed.



Lemma plain_text_facts (s : string) :
  plain_text s = true ->
  url.stringContainsCTLByte s = false
  /\ gostrings.Count s "?" = 0%nat
  /\ gostrings.Cut s "?" = (s, EmptyString, false)
  /\ url.unescape s url.encodePath = inr s.
Proof.
  induction s as [|c s IH]; [done|].
  simpl. intros H.
  apply andb_prop in H as [H Hrest]. apply andb_prop in H as [H Hq].
  apply andb_prop in H as [Hctl Hpct].
  destruct (IH Hrest) as (IH1 & IH2 & IH3 & IH4).
  apply negb_true_iff in Hctl, Hpct, Hq.
  rewrite IH1, IH2, IH3, Hq. rewrite orb_false_r.
  repeat split; try done.
  assert (Hc : c <> "%"%char) by (intros ->; discriminate).
  destruct c as [[] [] [] [] [] [] [] []]; try (by rewrite IH4); by destruct Hc.
Qed.

(** Every absolute path of plain text passes the parser, with an empty
    scheme and an empty host. *)
Lemma absolute_path_parses (t : string) :
  plain_text t = true ->
  url.ParseRequestURI (String "/" t)
  = inr {| url.Scheme := ""; url.Opaque := ""; url.User := None; url.Host := "";
           url.Path := String "/" t; url.OmitHost := false;
           url.ForceQuery := false; url.RawQuery := "" |}.
Proof.
  intros Ht.
  assert (Hs : plain_text (String "/" t) = true) by (simpl; exact Ht).
  destruct (plain_text_facts _ Hs) as (H1 & H2 & H3 & H4).
  unfold url.ParseRequestURI, url.parse. rewrite H1.
  replace (String.eqb (String "/" t) EmptyString) with false by reflexivity.
  replace (String.eqb (String "/" t) "*") with false by reflexivity.
  replace (url.getScheme (String "/" t)) with
    (inr (EmptyString, String "/" t) : string + string * string) by reflexivity.
  cbn [gostrings.ToLower]. rewrite H2, H3, andb_false_r.
  replace (gostrings.HasPrefix (String "/" t) "/") with true by reflexivity.
  cbn [negb String.eqb andb]. by rewrite H4.
Qed.

(** The console URL branch as a whole, for a request that reaches the
    switch with a string: refused by the parser, the value fails the
    validation and nothing is written; accepted, it is stored as scheme,
    "://", host, whatever its path and query, and the answer is 204. *)
Lemma console_url_update
    (h : Handler) (r : Request) (db : Postgres) (id : Z) (s : string)
    (row : SettingRow) :
  available db = true ->
  ParseInt (URLParam_id r) = inr id ->
  DecodeJSON r = inr (ConsoleURLSettingKey, ReqString s) ->
  Validator_Struct h {| req_ID := id; req_Key := ConsoleURLSettingKey;
                        req_Value := ReqString s |} = None ->
  setting db !! ConsoleURLSettingKey = Some row ->
  row_ID row = id ->
  UpdateGlobalSettings h r db =
  match url.ParseRequestURI s with
  | inl _ =>
      (respondError
         (ValidatorError "Key: 'SettingUpdateRequest.Value' Error:must be url"), db)
  | inr parsedUrl =>
      (WriteHeader StatusNoContent,
       {| available := true;
          setting := <[ConsoleURLSettingKey :=
                         updated_row id row
                           (StoredString (url.Scheme parsedUrl +:+ "://"
                                          +:+ url.Host parsedUrl))]> (setting db) |})
  end.
Proof.
  intros Hav Hid Hbody Hv Hrow Hrowid. unfold UpdateGlobalSettings.
  rewrite (run_with_row h r db id ConsoleURLSettingKey (ReqString s)
             Hav Hid Hbody row Hv Hrow).
  rewrite Hrowid, Z.eqb_refl, switch_console_url. simpl negb. cbv iota.
  destruct (url.ParseRequestURI s); [reflexivity|]. by rewrite Hav.
Qed.

(** C5, at the failing input.  Under the console URL key the value "/path",
    which has no scheme and no host, passes the validation: the handler
    answers 204 and stores "://". *)
Theorem console_url_accepts_absolute_path :
  let out := UpdateGlobalSettings example_handler
               (example_request "1" ConsoleURLSettingKey (ReqString "/path"))
               example_db in
  url.ParseRequestURI "/path"
  = inr {| url.Scheme := ""; url.Opaque := ""; url.User := None; url.Host := "";
           url.Path := "/path"; url.OmitHost := false;
           url.ForceQuery := false; url.RawQuery := "" |}
  /\ out.1 = WriteHeader StatusNoContent
  /\ setting out.2 !! ConsoleURLSettingKey
     = Some (updated_row 1 console_row (StoredString "://")).
Proof.
  split; [by apply absolute_path_parses|].
  split; vm_compute; reflexivity.
Qed.

(** ** The retention of inactive nodes *)

Lemma switch_retention (row : SettingRow) (id : Z) (v : RequestValue) :
  switch_Key (current_of InactiveNodesDeleteScanResultsKey row)
             {| req_ID := id; req_Key := InactiveNodesDeleteScanResultsKey;
                req_Value := v |}
  = match v with
    | ReqFloat64 val => inr (StoredInt (int_of_float64 (math_Round val)))
    | _ => inl (ValidatorError
                  "Key: 'SettingUpdateRequest.Value' Error:must be integer")
    end.
Proof. reflexivity. Qed.

Lemma pow2_pos (k : Z) : 0 <= k -> 0 < 2 ^ k.
Proof. intros Hk. apply Z.pow_pos_nonneg; lia. Qed.

(** The half-away rounding of a fraction with a positive denominator is a
    nearest integer, and on a tie it is the one farther from zero. *)
Lemma round_half_away_nearest (num den : Z) :
  0 < den ->
  let n := round_half_away num den in
  Z.abs (2 * (n * den - num)) <= den
  /\ (Z.abs (2 * (n * den - num)) = den -> Z.abs num < Z.abs (n * den)).
Proof.
  intros Hden n. unfold n, round_half_away.
  set (q := (2 * Z.abs num + den) / (2 * den)).
  assert (Hq : 2 * (q * den) <= 2 * Z.abs num + den < 2 * (q * den) + 2 * den).
  { pose proof (Z.div_mod (2 * Z.abs num + den) (2 * den) ltac:(lia)) as Hdm.
    pose proof (Z.mod_pos_bound (2 * Z.abs num + den) (2 * den) ltac:(lia)) as Hmod.
    fold q in Hdm. lia. }
  assert (Hq0 : 0 <= q * den).
  { apply Z.mul_nonneg_nonneg; [apply Z.div_pos|]; lia. }
  set (p := q * den) in *.
  destruct (Z.sgn_spec num) as [[Hn ->]|[[Hn ->]|[Hn ->]]].
  - replace (1 * q * den) with p by (unfold p; ring). lia.
  - replace (0 * q * den) with 0 by ring. lia.
  - replace (-1 * q * den) with (- p) by (unfold p; ring). lia.
Qed.

Lemma round_half_away_nonneg (num den : Z) :
  0 < den -> 0 <= num -> round_half_away num den = round_half_up num den.
Proof.
  intros Hden Hnum. unfold round_half_away, round_half_up.
  destruct (Z.eq_dec num 0) as [->|Hne].
  - change (Z.abs 0) with 0. rewrite !Z.div_small by lia. reflexivity.
  - rewrite Z.sgn_pos, Z.abs_eq by lia. lia.
Qed.

Lemma round_half_away_signed (s : bool) (a den : Z) :
  0 < a ->
  round_half_away (cond_Zopp s a) den = cond_Zopp s ((2 * a + den) / (2 * den)).
Proof.
  intros Ha. unfold round_half_away. destruct s; simpl cond_Zopp.
  - rewrite Z.sgn_neg, Z.abs_neq, Z.opp_involutive by lia. lia.
  - rewrite Z.sgn_pos, Z.abs_eq by lia. lia.
Qed.

Lemma int_of_signed (s : bool) (v : Z) :
  MinInt64 <= cond_Zopp s v <= MaxInt64 ->
  (if (MinInt64 <=? cond_Zopp s v) && (cond_Zopp s v <=? MaxInt64)
   then cond_Zopp s v else MinInt64) = cond_Zopp s v.
Proof.
  intros [Hlo Hhi]. apply Z.leb_le in Hlo, Hhi. by rewrite Hlo, Hhi.
Qed.

(** [int(math.Round(x))] on a finite float64 is the half-away rounding of
    its value, as long as that fits an int64. *)
Lemma int_Round_finite (s : bool) (m : positive) (e : Z) :
  let x := S754_finite s m e in
  MinInt64 <= round_half_away (float_num x) (float_den x) <= MaxInt64 ->
  int_of_float64 (math_Round x) = round_half_away (float_num x) (float_den x).
Proof.
  intros x. unfold x, float_num, float_den, math_Round.
  destruct (Z.leb_spec 0 e) as [He|He].
  - rewrite (Z.max_r 0 e), (Z.max_l 0 (- e)) by lia.
    change (2 ^ 0) with 1.
    pose proof (pow2_pos e He) as Hp.
    assert (Hmag : 0 < Z.pos m * 2 ^ e) by lia.
    rewrite round_half_away_signed by exact Hmag.
    replace ((2 * (Z.pos m * 2 ^ e) + 1) / (2 * 1)) with (Z.pos m * 2 ^ e).
    + intros Hrange. unfold int_of_float64.
      destruct (Z.leb_spec 0 e); [|lia].
      change (if s then - (Z.pos m * 2 ^ e) else Z.pos m * 2 ^ e)
        with (cond_Zopp s (Z.pos m * 2 ^ e)).
      by apply int_of_signed.
    + apply (Z.div_unique_pos _ 2 _ 1); lia.
  - rewrite (Z.max_l 0 e), (Z.max_r 0 (- e)) by lia.
    rewrite Z.pow_0_r, Z.mul_1_r.
    pose proof (pow2_pos (- e) ltac:(lia)) as Hp.
    rewrite round_half_away_signed by lia.
    assert (Hq0 : 0 <= (2 * Z.pos m + 2 ^ (- e)) / (2 * 2 ^ (- e))).
    { apply Z.div_pos; lia. }
    destruct ((2 * Z.pos m + 2 ^ (- e)) / (2 * 2 ^ (- e))) as [|q|q]; [| |lia].
    + intros _. by destruct s.
    + intros Hrange. unfold int_of_float64. change (0 <=? 0) with true. cbv iota.
      rewrite Z.pow_0_r, Z.mul_1_r.
      change (if s then - Z.pos q else Z.pos q) with (cond_Zopp s (Z.pos q)).
      by apply int_of_signed.
Qed.

(** C6, as amended.  Under the retention key, for a request that reaches
    the switch: a value that is not a number fails the validation and
    nothing is written; a number is stored as an integer, and the handler
    answers 204.  For a finite number whose rounding fits an int64 the
    integer is the nearest one, a half going away from zero; for a number
    that is not negative this is round-half-up. *)
Theorem retention_value_rounding
    (h : Handler) (r : Request) (db : Postgres)
    (id : Z) (v : RequestValue) (row : SettingRow) :
  available db = true ->
  ParseInt (URLParam_id r) = inr id ->
  DecodeJSON r = inr (InactiveNodesDeleteScanResultsKey, v) ->
  Validator_Struct h {| req_ID := id; req_Key := InactiveNodesDeleteScanResultsKey;
                        req_Value := v |} = None ->
  setting db !! InactiveNodesDeleteScanResultsKey = Some row ->
  row_ID row = id ->
  match v with
  | ReqFloat64 x =>
      let n := int_of_float64 (math_Round x) in
      UpdateGlobalSettings h r db
      = (WriteHeader StatusNoContent,
         {| available := true;
            setting := <[InactiveNodesDeleteScanResultsKey :=
                           updated_row id row (StoredInt n)]> (setting db) |})
      /\ forall s m e,
           x = S754_finite s m e ->
           MinInt64 <= round_half_away (float_num x) (float_den x) <= MaxInt64 ->
           n = round_half_away (float_num x) (float_den x)
           /\ Z.abs (2 * (n * float_den x - float_num x)) <= float_den x
           /\ (Z.abs (2 * (n * float_den x - float_num x)) = float_den x ->
               Z.abs (float_num x) < Z.abs (n * float_den x))
           /\ (0 <= float_num x -> n = round_half_up (float_num x) (float_den x))
  | _ =>
      UpdateGlobalSettings h r db
      = (respondError
           (ValidatorError "Key: 'SettingUpdateRequest.Value' Error:must be integer"),
         db)
  end.
Proof.
  intros Hav Hid Hbody Hv Hrow Hrowid.
  pose proof (run_with_row h r db id InactiveNodesDeleteScanResultsKey v
                Hav Hid Hbody row Hv Hrow) as Hrun.
  rewrite Hrowid, Z.eqb_refl, switch_retention in Hrun. simpl negb in Hrun. cbv iota in Hrun.
  unfold UpdateGlobalSettings.
  destruct v as [str|x|]; rewrite Hrun; try reflexivity.
  rewrite Hav. split; [reflexivity|].
  intros s m e -> Hrange.
  rewrite (int_Round_finite s m e Hrange).
  assert (Hden : 0 < float_den (S754_finite s m e)).
  { simpl. apply pow2_pos. lia. }
  destruct (round_half_away_nearest (float_num (S754_finite s m e)) _ Hden)
    as [Hnear Htie].
  split; [reflexivity|]. split; [exact Hnear|]. split; [exact Htie|].
  intros Hnum. by apply round_half_away_nonneg.
Qed.

Lemma retention_value_rounding_witness :
  available example_db = true
  /\ UpdateGlobalSettings example_handler
       (example_request "2" InactiveNodesDeleteScanResultsKey (ReqFloat64 float_7_6))
       example_db
     = (WriteHeader StatusNoContent,
        {| available := true;
           setting := <[InactiveNodesDeleteScanResultsKey :=
                          updated_row 2 retention_row (StoredInt 8)]>
                        (setting example_db) |})
  /\ UpdateGlobalSettings example_handler
       (example_request "2" InactiveNodesDeleteScanResultsKey (ReqString "abc"))
       example_db
     = (respondError
          (ValidatorError "Key: 'SettingUpdateRequest.Value' Error:must be integer"),
        example_db).
Proof.
  split; [reflexivity|]. split.
  - apply (retention_value_rounding example_handler
             (example_request "2" InactiveNodesDeleteScanResultsKey (ReqFloat64 float_7_6))
             example_db 2 (ReqFloat64 float_7_6) retention_row
             eq_refl eq_refl eq_refl eq_refl eq_refl eq_refl).
  - apply (retention_value_rounding example_handler
             (example_request "2" InactiveNodesDeleteScanResultsKey (ReqString "abc"))
             example_db 2 (ReqString "abc") retention_row
             eq_refl eq_refl eq_refl eq_refl eq_refl eq_refl).
Defined.

(** The float64 written 7.6 is within half a unit in the last place of
    7.6: it is 76/10 less 4/10 of 2^-50. *)
Lemma float_7_6_value :
  float_den float_7_6 = 2 ^ 50
  /\ 10 * float_num float_7_6 - 76 * 2 ^ 50 = -4.
Proof. split; reflexivity. Qed.

(** C6, as stated, fails at -2.5: the handler stores -3, and
    round-half-up of -5/2 is -2. *)
Lemma retention_negative_half :
  (float_num float_minus_2_5, float_den float_minus_2_5) = (-5, 2)
  /\ UpdateGlobalSettings example_handler
       (example_request "2" InactiveNodesDeleteScanResultsKey
          (ReqFloat64 float_minus_2_5))
       example_db
     = (WriteHeader StatusNoContent,
        {| available := true;
           setting := <[InactiveNodesDeleteScanResultsKey :=
                          updated_row 2 retention_row (StoredInt (-3))]>
                        (setting example_db) |})
  /\ round_half_up (-5) 2 = -2.
Proof. split; [reflexivity|]. split; [|reflexivity]. vm_compute. reflexivity. Qed.

(** ** What a successful update writes *)

(** A run that ends in a table went through every check. *)
Lemma run_success_inv (h : Handler) (r : Request) (db : Postgres)
    (table : gmap string SettingRow) :
  UpdateGlobalSettings_run h r db = inr table ->
  exists id key v row value,
    available db = true
    /\ ParseInt (URLParam_id r) = inr id
    /\ DecodeJSON r = inr (key, v)
    /\ Validator_Struct h {| req_ID := id; req_Key := key; req_Value := v |} = None
    /\ setting db !! key = Some row
    /\ row_ID row = id
    /\ switch_Key (current_of key row)
                  {| req_ID := id; req_Key := key; req_Value := v |} = inr value
    /\ table = <[key := updated_row id row value]> (setting db).
Proof.
  intros Hrun.
  destruct (available db) eqn:Hav.
  2:{ unfold UpdateGlobalSettings_run, PostgresClient in Hrun.
      rewrite Hav in Hrun. discriminate. }
  destruct (ParseInt (URLParam_id r)) as [e|id] eqn:Hid.
  { unfold UpdateGlobalSettings_run, PostgresClient in Hrun.
    rewrite Hav, Hid in Hrun. discriminate. }
  destruct (DecodeJSON r) as [e|[key v]] eqn:Hbody.
  { unfold UpdateGlobalSettings_run, PostgresClient in Hrun.
    rewrite Hav, Hid, Hbody in Hrun. discriminate. }
  destruct (Validator_Struct h {| req_ID := id; req_Key := key; req_Value := v |})
    as [err|] eqn:Hv.
  { rewrite (run_validator_refuses h r db id key v Hav Hid Hbody err Hv) in Hrun.
    discriminate. }
  destruct (setting db !! key) as [row|] eqn:Hrow.
  2:{ rewrite (run_no_row h r db id key v Hav Hid Hbody Hv Hrow) in Hrun.
      discriminate. }
  rewrite (run_with_row h r db id key v Hav Hid Hbody row Hv Hrow) in Hrun.
  destruct (id =? row_ID row) eqn:E; [|discriminate]. apply Z.eqb_eq in E.
  simpl in Hrun.
  destruct (switch_Key (current_of key row) _) as [err|value] eqn:Hswitch;
    [discriminate|].
  injection Hrun as <-.
  exists id, key, v, row, value. repeat split; try done.
Qed.

(** C7.  When the handler answers 204, the store differs from the one
    before in the row of the request's key only, and the new row has the
    label, the description, the visibility flag and the id of the old one;
    only the value may differ. *)
Theorem update_changes_value_only (h : Handler) (r : Request) (db db' : Postgres) :
  UpdateGlobalSettings h r db = (WriteHeader StatusNoContent, db') ->
  exists key old new,
    setting db !! key = Some old
    /\ setting db' !! key = Some new
    /\ Label (row_Value new) = Label (row_Value old)
    /\ Description (row_Value new) = Description (row_Value old)
    /\ row_IsVisibleOnUi new = row_IsVisibleOnUi old
    /\ row_ID new = row_ID old
    /\ (forall k, k <> key -> setting db' !! k = setting db !! k)
    /\ available db' = available db.
Proof.
  unfold UpdateGlobalSettings.
  destruct (UpdateGlobalSettings_run h r db) as [resp|table] eqn:Hrun;
    [intros [= -> <-]|intros [= <-]].
  { destruct (run_responses h r db) as [[err Herr]|[table [Hrun' _]]];
      [|congruence].
    unfold UpdateGlobalSettings in Herr. rewrite Hrun in Herr. discriminate. }
  destruct (run_success_inv h r db table Hrun)
    as (id & key & v & row & value & _ & _ & _ & _ & Hrow & Hid & _ & ->).
  exists key, row, (updated_row id row value). simpl.
  rewrite lookup_insert_eq. repeat split; try done.
  intros k Hk. by rewrite lookup_insert_ne.
Qed.

Lemma update_changes_value_only_witness :
  UpdateGlobalSettings example_handler
    (example_request "1" ConsoleURLSettingKey (ReqString "https://example.com/path?x=1"))
    example_db
  = (WriteHeader StatusNoContent,
     {| available := true;
        setting := <[ConsoleURLSettingKey :=
                       updated_row 1 console_row (StoredString "https://example.com")]>
                     (setting example_db) |})
  /\ exists key old new,
       setting example_db !! key = Some old
       /\ setting (UpdateGlobalSettings example_handler
                     (example_request "1" ConsoleURLSettingKey
                        (ReqString "https://example.com/path?x=1"))
                     example_db).2 !! key = Some new
       /\ Label (row_Value new) = Label (row_Value old).
Proof.
  assert (Hrun : UpdateGlobalSettings example_handler
            (example_request "1" ConsoleURLSettingKey
               (ReqString "https://example.com/path?x=1"))
            example_db
          = (WriteHeader StatusNoContent,
             {| available := true;
                setting := <[ConsoleURLSettingKey :=
                               updated_row 1 console_row
                                 (StoredString "https://example.com")]>
                             (setting example_db) |})).
  { vm_compute. reflexivity. }
  split; [exact Hrun|].
  destruct (update_changes_value_only _ _ _ _ Hrun)
    as (key & old & new & Hold & Hnew & Hlabel & _).
  exists key, old, new. rewrite Hrun. repeat split; assumption.
Defined.

(** ** A key the switch does not know *)

Lemma switch_other_key (key : string) (row : SettingRow) (req : SettingUpdateRequest) :
  key <> ConsoleURLSettingKey -> key <> InactiveNodesDeleteScanResultsKey ->
  switch_Key (current_of key row) req = inr StoredNil.
Proof.
  intros H1 H2. unfold switch_Key. simpl Key.
  apply String.eqb_neq in H1, H2. by rewrite H1, H2.
Qed.

(** C10.  A request that is decoded, passes the validator and names the id
    of the row of its key, under a key that is neither the console URL key
    nor the retention key, is answered 204, and the row is written with the
    value nil in place of the submitted one, its label, description and
    visibility kept. *)
Theorem unknown_key_stores_nil
    (h : Handler) (r : Request) (db : Postgres)
    (id : Z) (key : string) (v : RequestValue) (row : SettingRow) :
  available db = true ->
  ParseInt (URLParam_id r) = inr id ->
  DecodeJSON r = inr (key, v) ->
  Validator_Struct h {| req_ID := id; req_Key := key; req_Value := v |} = None ->
  setting db !! key = Some row ->
  row_ID row = id ->
  key <> ConsoleURLSettingKey ->
  key <> InactiveNodesDeleteScanResultsKey ->
  UpdateGlobalSettings h r db
  = (WriteHeader StatusNoContent,
     {| available := true;
        setting := <[key := updated_row id row StoredNil]> (setting db) |})
  /\ Value (row_Value (updated_row id row StoredNil)) = StoredNil
  /\ StatusNoContent = 204.
Proof.
  intros Hav Hid Hbody Hv Hrow Hrowid Hk1 Hk2.
  split; [|split; reflexivity].
  unfold UpdateGlobalSettings.
  rewrite (run_with_row h r db id key v Hav Hid Hbody row Hv Hrow).
  rewrite Hrowid, Z.eqb_refl. simpl negb. cbv iota.
  rewrite (switch_other_key key row _ Hk1 Hk2). by rewrite Hav.
Qed.

Lemma unknown_key_stores_nil_witness :
  setting example_db !! "email_configuration" = Some other_row
  /\ UpdateGlobalSettings example_handler
       (example_request "3" "email_configuration" (ReqString "smtp.example.com"))
       example_db
     = (WriteHeader StatusNoContent,
        {| available := true;
           setting := <["email_configuration" := updated_row 3 other_row StoredNil]>
                        (setting example_db) |}).
Proof.
  split; [reflexivity|].
  apply (unknown_key_stores_nil example_handler
           (example_request "3" "email_configuration" (ReqString "smtp.example.com"))
           example_db 3 "email_configuration" (ReqString "smtp.example.com") other_row
           eq_refl eq_refl eq_refl eq_refl eq_refl eq_refl);
    discriminate.
Defined.

(* ===================================================================== *)
(** * Part II.c  More facts about the listing view *)
(* ===================================================================== *)

(** ** The boxes *)

Lemma append_kept_eq (name value : string) (l : list string) (q : URLSearchParams) :
  append_kept name value l q
  = q ++ (pair name <$> filter (fun s => s <> value) l).
Proof. unfold append_kept. apply foldl_append. Qed.

Lemma uncheck_page_last_form (name value : string) (q : URLSearchParams) :
  name <> "page" -> box_uncheck_page_last name value q = unchecked_form name value q.
Proof.
  intros Hne. unfold box_uncheck_page_last, unchecked_form.
  rewrite append_kept_eq, delete_app, delete_pairs_ne by exact Hne.
  by rewrite delete_comm.
Qed.

Lemma uncheck_page_first_form (name value : string) (q : URLSearchParams) :
  name <> "page" -> box_uncheck_page_first name value q = unchecked_form name value q.
Proof.
  intros Hne. unfold box_uncheck_page_first, unchecked_form. by rewrite append_kept_eq.
Qed.

Lemma uncheck_page_middle_form (name value : string) (q : URLSearchParams) :
  name <> "page" -> box_uncheck_page_middle name value q = unchecked_form name value q.
Proof.
  intros Hne. unfold box_uncheck_page_middle, unchecked_form.
  by rewrite append_kept_eq, delete_comm.
Qed.

Lemma box_check_form (name value : string) (q : URLSearchParams) :
  name <> "page" -> box_check name value q = USP.delete "page" q ++ [(name, value)].
Proof.
  intros Hne. unfold box_check, USP.append. rewrite delete_app.
  f_equal. rewrite delete_cons. simpl. by destruct (decide (name = "page")).
Qed.

Lemma getAll_unchecked_form (name value other : string) (q : URLSearchParams) :
  name <> "page" ->
  USP.getAll other (unchecked_form name value q) =
  if decide (other = name) then filter (fun s => s <> value) (USP.getAll name q)
  else if decide (other = "page") then []
  else USP.getAll other q.
Proof.
  intros Hne. unfold unchecked_form. rewrite getAll_app, getAll_pairs.
  destruct (decide (other = name)) as [->|Hother].
  - rewrite getAll_delete_eq. by destruct (decide (name = name)).
  - destruct (decide (name = other)); [congruence|]. rewrite app_nil_r.
    rewrite getAll_delete_ne by exact Hother.
    destruct (decide (other = "page")) as [->|Hpage].
    + apply getAll_delete_eq.
    + by apply getAll_delete_ne.
Qed.

Lemma getAll_checked_form (name value other : string) (q : URLSearchParams) :
  name <> "page" ->
  USP.getAll other (USP.delete "page" q ++ [(name, value)]) =
  if decide (other = name) then USP.getAll name q ++ [value]
  else if decide (other = "page") then []
  else USP.getAll other q.
Proof.
  intros Hne. rewrite getAll_app, (getAll_cons other (name, value) []). simpl.
  destruct (decide (other = name)) as [->|Hother].
  - destruct (decide (name = name)); [|done]. by rewrite getAll_delete_ne.
  - destruct (decide (name = other)); [congruence|]. rewrite app_nil_r.
    destruct (decide (other = "page")) as [->|Hpage].
    + apply getAll_delete_eq.
    + by apply getAll_delete_ne.
Qed.

Lemma checked_spec (name value : string) (q : URLSearchParams) :
  checked name value q = true <-> value ∈ USP.getAll name q.
Proof. unfold checked. apply bool_decide_eq_true. Qed.

(** The six handlers in the two forms. *)
Lemma boxes_forms :
  Forall (fun box =>
            let '(name, value, handler) := box in
            name <> "page"
            /\ forall q, handler true q = USP.delete "page" q ++ [(name, value)]
                         /\ handler false q = unchecked_form name value q)
         boxes.
Proof.
  unfold boxes.
  repeat (constructor; [split; [discriminate|intros q; split]|]);
    [..|constructor];
    lazymatch goal with
    | |- _ = _ ++ [(?n, ?v)] => exact (box_check_form n v q ltac:(discriminate))
    | |- _ = unchecked_form ?n ?v _ =>
        first [ exact (uncheck_page_last_form n v q ltac:(discriminate))
              | exact (uncheck_page_first_form n v q ltac:(discriminate))
              | exact (uncheck_page_middle_form n v q ltac:(discriminate)) ]
    end.
Qed.

(** X1: Unchecking any of the six boxes, from any query string: the box's
    value is gone from its parameter and the parameter's other values stay
    in their order; every other parameter keeps its values; no page entry
    is left; and the box reads unchecked.  The three orders in which the
    handlers delete and append give the same query string. *)
Theorem boxes_uncheck :
  Forall (fun box =>
            let '(name, value, handler) := box in
            forall q,
              handler false q = unchecked_form name value q
              /\ USP.getAll name (handler false q)
                 = filter (fun s => s <> value) (USP.getAll name q)
              /\ (forall other, other <> name -> other <> "page" ->
                                USP.getAll other (handler false q) = USP.getAll other q)
              /\ USP.getAll "page" (handler false q) = []
              /\ checked name value (handler false q) = false)
         boxes.
Proof.
  eapply Forall_impl; [exact boxes_forms|].
  intros [[name value] handler] [Hne Hforms] q.
  destruct (Hforms q) as [_ Hun]. rewrite Hun.
  assert (Hname : USP.getAll name (unchecked_form name value q)
                  = filter (fun s => s <> value) (USP.getAll name q)).
  { rewrite getAll_unchecked_form by exact Hne. by destruct (decide (name = name)). }
  split; [reflexivity|]. split; [exact Hname|]. split; [|split].
  - intros other H1 H2. rewrite getAll_unchecked_form by exact Hne.
    destruct (decide (other = name)); [contradiction|].
    by destruct (decide (other = "page")).
  - rewrite getAll_unchecked_form by exact Hne.
    destruct (decide ("page" = name)); [congruence|].
    by destruct (decide ("page" = "page")).
  - apply not_true_is_false. rewrite checked_spec, Hname.
    intros Hin. apply list_elem_of_filter in Hin as [Hin _]. by apply Hin.
Qed.

(** X2: Checking any of the six boxes, from any query string: the value is
    appended to the box's parameter, every other parameter keeps its values,
    no page entry is left, and the box reads checked. *)
Theorem boxes_check :
  Forall (fun box =>
            let '(name, value, handler) := box in
            forall q,
              USP.getAll name (handler true q) = USP.getAll name q ++ [value]
              /\ (forall other, other <> name -> other <> "page" ->
                                USP.getAll other (handler true q) = USP.getAll other q)
              /\ USP.getAll "page" (handler true q) = []
              /\ checked name value (handler true q) = true)
         boxes.
Proof.
  eapply Forall_impl; [exact boxes_forms|].
  intros [[name value] handler] [Hne Hforms] q.
  destruct (Hforms q) as [Hch _]. rewrite Hch.
  assert (Hname : USP.getAll name (USP.delete "page" q ++ [(name, value)])
                  = USP.getAll name q ++ [value]).
  { rewrite getAll_app, getAll_delete_ne by exact Hne.
    rewrite (getAll_cons name (name, value) []). simpl.
    by destruct (decide (name = name)). }
  split; [exact Hname|]. split; [|split].
  - intros other H1 H2. rewrite getAll_app, getAll_delete_ne by exact H2.
    rewrite (getAll_cons other (name, value) []). simpl.
    destruct (decide (name = other)); [congruence|]. apply app_nil_r.
  - rewrite getAll_app, getAll_delete_eq.
    rewrite (getAll_cons "page" (name, value) []). simpl.
    by destruct (decide (name = "page")).
  - rewrite checked_spec, Hname. apply elem_of_app. right. constructor.
Qed.

(** ** The multi-selects *)

Lemma select_onChange_form (name : string) (value : list string) (q : URLSearchParams) :
  name <> "page" ->
  select_onChange name value q
  = USP.delete name (USP.delete "page" q) ++ (pair name <$> value).
Proof.
  intros Hne. unfold select_onChange.
  rewrite foldl_append, delete_app, delete_pairs_ne by exact Hne.
  by rewrite delete_comm.
Qed.

Lemma has_spec (name : string) (q : URLSearchParams) :
  URLSearchParams_has name q = true <-> USP.getAll name q <> [].
Proof.
  unfold URLSearchParams_has. rewrite bool_decide_eq_true.
  induction q as [|[k v] q IH].
  - split; [intros H; by apply elem_of_nil in H|intros H; by destruct H].
  - rewrite fmap_cons, getAll_cons, elem_of_cons. simpl.
    destruct (decide (k = name)) as [->|Hk].
    + split; [discriminate|by left].
    + rewrite <- IH. split; [intros [?|?]; [congruence|done]|by right].
Qed.

Lemma has_false (name : string) (q : URLSearchParams) :
  URLSearchParams_has name q = false <-> USP.getAll name q = [].
Proof.
  rewrite <- not_true_iff_false, has_spec.
  destruct (USP.getAll name q) as [|x l].
  - split; [reflexivity|]. intros _ H. by apply H.
  - split; [|discriminate]. intros H. exfalso. apply H. discriminate.
Qed.

(** Whether a parameter has an entry depends on its values only. *)
Lemma has_ext (name : string) (q1 q2 : URLSearchParams) :
  USP.getAll name q1 = USP.getAll name q2 ->
  URLSearchParams_has name q1 = URLSearchParams_has name q2.
Proof.
  intros Heq. destruct (URLSearchParams_has name q2) eqn:H2.
  - apply has_spec. rewrite Heq. by apply has_spec.
  - apply has_false. rewrite Heq. by apply has_false.
Qed.

Lemma delete_pairs_eq (name : string) (l : list string) :
  USP.delete name (pair name <$> l) = [].
Proof.
  induction l as [|v l IH]; [reflexivity|].
  rewrite fmap_cons, delete_cons. simpl. by destruct (decide (name = name)).
Qed.

(** X3: A selection in any of the four selects, from any query string: the
    parameter holds the selected values, in their order, whatever it held;
    every other parameter keeps its values; no page entry is left; making
    the same selection again changes nothing; and the empty selection
    removes the parameter. *)
Theorem selects_replace :
  Forall (fun name =>
            forall (value : list string) (q : URLSearchParams),
              USP.getAll name (select_onChange name value q) = value
              /\ (forall other, other <> name -> other <> "page" ->
                    USP.getAll other (select_onChange name value q)
                    = USP.getAll other q)
              /\ USP.getAll "page" (select_onChange name value q) = []
              /\ select_onChange name value (select_onChange name value q)
                 = select_onChange name value q
              /\ URLSearchParams_has name (select_onChange name [] q) = false)
         select_names.
Proof.
  assert (Hall : Forall (fun name => name <> "page") select_names).
  { unfold select_names. repeat constructor; discriminate. }
  eapply Forall_impl; [exact Hall|].
  intros name Hne value q. cbv beta.
  assert (Hname : forall l q', USP.getAll name (select_onChange name l q') = l).
  { intros l q'. rewrite select_onChange_form by exact Hne.
    rewrite getAll_app, getAll_delete_eq, getAll_pairs.
    by destruct (decide (name = name)). }
  split; [apply Hname|]. split; [|split; [|split]].
  - intros other H1 H2. rewrite select_onChange_form by exact Hne.
    rewrite getAll_app, getAll_pairs, !getAll_delete_ne by done.
    destruct (decide (name = other)); [congruence|]. apply app_nil_r.
  - rewrite select_onChange_form by exact Hne.
    rewrite getAll_app, getAll_pairs, (delete_comm name "page"), getAll_delete_eq.
    by destruct (decide (name = "page")).
  - rewrite (select_onChange_form name value (select_onChange name value q))
      by exact Hne.
    rewrite (select_onChange_form name value q) at 2 by exact Hne.
    f_equal. rewrite (select_onChange_form name value q) by exact Hne.
    rewrite delete_app, delete_pairs_ne by exact Hne.
    rewrite delete_app, delete_pairs_eq, app_nil_r.
    by rewrite (delete_comm "page" name), !delete_idem.
  - apply has_false, Hname.
Qed.

(** ** Paging and sorting *)

Lemma delete_set_eq (name value : string) (q : URLSearchParams) :
  USP.delete name (USP.set name value q) = USP.delete name q.
Proof.
  induction q as [|p q IH]; simpl.
  - rewrite delete_cons. simpl. by destruct (decide (name = name)).
  - case_bool_decide as E.
    + rewrite !delete_cons. simpl.
      destruct (decide (name = name)); [|done].
      destruct (decide (p.1 = name)); [|done]. apply delete_idem.
    + rewrite !delete_cons. destruct (decide (p.1 = name)); [done|]. by rewrite IH.
Qed.

Lemma delete_set_ne (name name' value : string) (q : URLSearchParams) :
  name <> name' ->
  USP.delete name (USP.set name' value q) = USP.set name' value (USP.delete name q).
Proof.
  intros Hne. induction q as [|p q IH]; simpl.
  - rewrite delete_cons. simpl. destruct (decide (name' = name)); [congruence|done].
  - case_bool_decide as E.
    + rewrite !delete_cons. simpl.
      destruct (decide (name' = name)); [congruence|].
      destruct (decide (p.1 = name)); [congruence|]. simpl.
      rewrite bool_decide_eq_true_2 by exact E. by rewrite delete_comm.
    + rewrite !delete_cons. destruct (decide (p.1 = name)); [exact IH|].
      simpl. rewrite bool_decide_eq_false_2 by exact E. by rewrite IH.
Qed.

Lemma set_set (name v1 v2 : string) (q : URLSearchParams) :
  USP.set name v2 (USP.set name v1 q) = USP.set name v2 q.
Proof.
  induction q as [|p q IH]; simpl.
  - by rewrite bool_decide_eq_true_2.
  - case_bool_decide as E; simpl.
    + rewrite bool_decide_eq_true_2 by done. by rewrite delete_idem.
    + rewrite bool_decide_eq_false_2 by exact E. by rewrite IH.
Qed.

(** X4: A change of the page, from any query string: every other parameter
    keeps its values, and the entries other than page stay as they are and
    in their order; page has the one value of the new page; and of two
    changes in a row the second alone counts. *)
Theorem pagination_keeps_filters (n m : Z) (q : URLSearchParams) :
  USP.delete "page" (onPaginationChange n q) = USP.delete "page" q
  /\ (forall name, name <> "page" ->
                   USP.getAll name (onPaginationChange n q) = USP.getAll name q)
  /\ USP.getAll "page" (onPaginationChange n q) = [String_of_number n]
  /\ onPaginationChange m (onPaginationChange n q) = onPaginationChange m q.
Proof.
  unfold onPaginationChange. split; [apply delete_set_eq|].
  split; [intros name Hne; by apply getAll_set_ne|].
  split; [apply getAll_set_eq|apply set_set].
Qed.

(** X5: A change of the sort, from any query string.  With a sort state that
    is not empty, sortby holds the id of its first column and desc the text
    of that column's direction, one value each, and further columns of the
    state leave no trace; with the empty state both parameters go.  Every
    other parameter keeps its values, page among them, and clearing the
    sort after setting it gives what clearing alone gives. *)
Theorem sorting_sets_first_column (first : ColumnSort) (more : list ColumnSort)
    (q : URLSearchParams) :
  USP.getAll "sortby" (onSortingChange (first :: more) q) = [id first]
  /\ USP.getAll "desc" (onSortingChange (first :: more) q)
     = [if desc first then "true" else "false"]
  /\ onSortingChange (first :: more) q = onSortingChange [first] q
  /\ USP.getAll "sortby" (onSortingChange [] q) = []
  /\ USP.getAll "desc" (onSortingChange [] q) = []
  /\ (forall state name, name <> "sortby" -> name <> "desc" ->
        USP.getAll name (onSortingChange state q) = USP.getAll name q)
  /\ onSortingChange [] (onSortingChange (first :: more) q) = onSortingChange [] q.
Proof.
  split; [|split; [|split; [reflexivity|split; [|split; [|split]]]]].
  - simpl. rewrite getAll_set_ne by discriminate. apply getAll_set_eq.
  - simpl. rewrite getAll_set_eq. by destruct (desc first).
  - simpl. rewrite getAll_delete_ne by discriminate. apply getAll_delete_eq.
  - simpl. apply getAll_delete_eq.
  - intros [|s state] name H1 H2; simpl.
    + by rewrite !getAll_delete_ne.
    + by rewrite !getAll_set_ne.
  - simpl. rewrite delete_set_ne by discriminate.
    by rewrite !delete_set_eq.
Qed.

(** ** The filter indicator *)

Lemma isFilterApplied_spec (q : URLSearchParams) :
  isFilterApplied q = true
  <-> exists name, name ∈ indicator_names /\ USP.getAll name q <> [].
Proof.
  unfold isFilterApplied, indicator_names. rewrite !orb_true_iff, !has_spec. split.
  - intros [[[[[H|H]|H]|H]|H]|H]; eexists; (split; [|exact H]); compute_done.
  - intros (name & Hin & H).
    repeat (apply elem_of_cons in Hin as [->|Hin]; [tauto|]).
    by apply elem_of_nil in Hin.
Qed.

Lemma isFilterApplied_ext (q1 q2 : URLSearchParams) :
  (forall name, name ∈ indicator_names -> USP.getAll name q1 = USP.getAll name q2) ->
  isFilterApplied q1 = isFilterApplied q2.
Proof.
  intros Heq. unfold isFilterApplied.
  rewrite (has_ext "languages" q1 q2), (has_ext "containerImages" q1 q2),
    (has_ext "containers" q1 q2), (has_ext "nodeType" q1 q2),
    (has_ext "hosts" q1 q2), (has_ext "clusters" q1 q2);
    try reflexivity; apply Heq; compute_done.
Qed.

(** X6: The filter indicator is lit exactly when languages, containerImages,
    containers, nodeType, hosts or clusters has an entry.  The status
    parameter does not count: the three status boxes, a change of the page
    and a change of the sort leave the indicator as it is, while checking a
    node type box lights it. *)
Theorem indicator_ignores_status (q : URLSearchParams) :
  (isFilterApplied q = true
   <-> exists name, name ∈ indicator_names /\ USP.getAll name q <> [])
  /\ (forall state, isFilterApplied (complete_onCheckedChange state q)
                    = isFilterApplied q)
  /\ (forall state, isFilterApplied (in_progress_onCheckedChange state q)
                    = isFilterApplied q)
  /\ (forall state, isFilterApplied (error_onCheckedChange state q)
                    = isFilterApplied q)
  /\ (forall n, isFilterApplied (onPaginationChange n q) = isFilterApplied q)
  /\ (forall s, isFilterApplied (onSortingChange s q) = isFilterApplied q)
  /\ isFilterApplied (host_onCheckedChange true q) = true
  /\ isFilterApplied (container_onCheckedChange true q) = true
  /\ isFilterApplied (container_image_onCheckedChange true q) = true.
Proof.
  assert (Hnames : forall name, name ∈ indicator_names ->
                                name <> "status" /\ name <> "page"
                                /\ name <> "sortby" /\ name <> "desc").
  { intros name Hin. unfold indicator_names in Hin.
    repeat (apply elem_of_cons in Hin as [->|Hin]; [repeat split; discriminate|]).
    by apply elem_of_nil in Hin. }
  assert (Hstatus : forall value handler,
             (forall q', handler true q' = USP.delete "page" q' ++ [("status", value)]) ->
             (forall q', handler false q' = unchecked_form "status" value q') ->
             forall state, isFilterApplied (handler state q) = isFilterApplied q).
  { intros value handler Htrue Hfalse state. apply isFilterApplied_ext.
    intros name Hin. destruct (Hnames name Hin) as (H1 & H2 & _).
    destruct state.
    - rewrite Htrue, getAll_checked_form by discriminate.
      destruct (decide (name = "status")); [contradiction|].
      by destruct (decide (name = "page")).
    - rewrite Hfalse, getAll_unchecked_form by discriminate.
      destruct (decide (name = "status")); [contradiction|].
      by destruct (decide (name = "page")). }
  assert (HnodeType : forall value handler,
             (forall q', handler true q' = USP.delete "page" q' ++ [("nodeType", value)]) ->
             isFilterApplied (handler true q) = true).
  { intros value handler Htrue. apply isFilterApplied_spec. exists "nodeType".
    split; [compute_done|].
    rewrite Htrue, getAll_checked_form by discriminate. simpl.
    by destruct (USP.getAll "nodeType" q). }
  pose proof boxes_forms as Hforms. unfold boxes in Hforms.
  repeat (apply Forall_cons in Hforms as [[_ ?Hf] Hforms]).
  split; [apply isFilterApplied_spec|].
  split; [|split; [|split; [|split; [|split; [|split; [|split]]]]]].
  - apply (Hstatus "complete"); intros q'; apply Hf2.
  - apply (Hstatus "in_progress"); intros q'; apply Hf3.
  - apply (Hstatus "error"); intros q'; apply Hf4.
  - intros n. apply isFilterApplied_ext. intros name Hin.
    destruct (Hnames name Hin) as (_ & H2 & _).
    by apply getAll_set_ne.
  - intros s. apply isFilterApplied_ext. intros name Hin.
    destruct (Hnames name Hin) as (_ & _ & H3 & H4).
    destruct s as [|first s]; simpl.
    + by rewrite !getAll_delete_ne.
    + by rewrite !getAll_set_ne.
  - apply (HnodeType "host"). intros q'. apply Hf.
  - apply (HnodeType "container"). intros q'. apply Hf0.
  - apply (HnodeType "container_image"). intros q'. apply Hf1.
Qed.

(** ** The loader *)

Lemma loader_nodeType_cases (q : URLSearchParams) :
  loader_nodeType q
  = match USP.getAll "nodeType" q with
    | [] => ["container_image"; "container"; "host"]
    | l => l
    end.
Proof.
  unfold loader_nodeType. destruct (USP.getAll "nodeType" q) as [|x l].
  - by rewrite bool_decide_eq_false_2 by (simpl; lia).
  - by rewrite bool_decide_eq_true_2 by (simpl; lia).
Qed.

Section LoaderFacts.

Variable toUpperCase : string -> string.
Variable getPageFromSearchParams : URLSearchParams -> Z.
Variable getOrderFromSearchParams : URLSearchParams -> option Order.
Variable searchSecretsScan :
  SearchSearchScanReq -> ApiResult (option (list ModelScanInfo)) Results.
Variable searchSecretScanCount :
  SearchSearchScanReq -> ApiResult CountResp Results.

Local Abbreviation request_of :=
  (scanRequestParams toUpperCase getPageFromSearchParams getOrderFromSearchParams).
Local Abbreviation run :=
  (getScans toUpperCase getPageFromSearchParams getOrderFromSearchParams
            searchSecretsScan searchSecretScanCount).
Local Abbreviation load :=
  (loader toUpperCase getPageFromSearchParams getOrderFromSearchParams
          searchSecretsScan searchSecretScanCount).

Lemma getScans_first_call (nodeTypes : list string) (searchParams : URLSearchParams) :
  exists rest,
    (run nodeTypes searchParams []).1
    = searchSecretsScan_call (request_of nodeTypes searchParams) :: rest.
Proof.
  unfold getScans, async_bind, makeRequest. simpl.
  destruct (searchSecretsScan _) as [result|e]; [|by eexists].
  destruct (searchSecretScanCount _) as [c|e]; [|by eexists].
  destruct result; by eexists.
Qed.

(** X7: The request the loader sends always names node types: those of the
    query string when it has any, in their order, and otherwise
    container_image, container and host.  The node_type filter is never
    empty and never absent. *)
Theorem loader_node_types (searchParams : URLSearchParams) :
  exists req rest,
    (load searchParams []).1 = searchSecretsScan_call req :: rest
    /\ contains_filter (filters (node_filters req)) !! "node_type"
       = Some (loader_nodeType searchParams)
    /\ loader_nodeType searchParams <> []
    /\ (USP.getAll "nodeType" searchParams <> [] ->
        loader_nodeType searchParams = USP.getAll "nodeType" searchParams)
    /\ (USP.getAll "nodeType" searchParams = [] ->
        loader_nodeType searchParams = ["container_image"; "container"; "host"]).
Proof.
  unfold loader. cbv zeta.
  destruct (getScans_first_call (loader_nodeType searchParams) searchParams)
    as [rest Hrest].
  exists (request_of (loader_nodeType searchParams) searchParams), rest.
  split; [exact Hrest|]. split; [apply nodeFilters_node_type|].
  rewrite loader_nodeType_cases.
  destruct (USP.getAll "nodeType" searchParams) as [|x l]; repeat split; done.
Qed.

(** ** Failed requests *)

(** X8: When the page request fails, [getScans] throws the error's value and
    the count request is never sent. *)
Theorem getScans_page_request_fails
    (nodeTypes : list string) (searchParams : URLSearchParams) (e : Results) :
  searchSecretsScan (request_of nodeTypes searchParams) = ApiError e ->
  run nodeTypes searchParams []
  = ([searchSecretsScan_call (request_of nodeTypes searchParams)], inl e).
Proof.
  intros He. unfold getScans, async_bind, makeRequest. simpl. by rewrite He.
Qed.

(** X9: When the page request succeeds and the count request fails, [getScans]
    throws the count error's value after both requests, whatever the page
    request returned: rows that were fetched are not returned, and a null
    page result does not lead to the initial results. *)
Theorem getScans_count_request_fails
    (nodeTypes : list string) (searchParams : URLSearchParams)
    (result : option (list ModelScanInfo)) (e : Results) :
  let req := request_of nodeTypes searchParams in
  searchSecretsScan req = ApiValue result ->
  searchSecretScanCount (countRequestParams req) = ApiError e ->
  run nodeTypes searchParams []
  = ([searchSecretsScan_call req; searchSecretScanCount_call (countRequestParams req)],
     inl e).
Proof.
  intros req Hpage Hcount. unfold getScans, async_bind, makeRequest. fold req.
  rewrite Hpage. simpl. by rewrite Hcount.
Qed.

End LoaderFacts.

Lemma getScans_page_request_fails_witness :
  failing_search
    (scanRequestParams toUpperCase_ascii example_page example_order ["host"] example_query)
  = ApiError example_failure
  /\ (getScans toUpperCase_ascii example_page example_order failing_search example_count
        ["host"] example_query []).2 = inl example_failure.
Proof.
  split; [reflexivity|].
  by rewrite (getScans_page_request_fails toUpperCase_ascii example_page example_order
                failing_search example_count ["host"] example_query example_failure eq_refl).
Defined.

Lemma getScans_count_request_fails_witness :
  example_search (Some [example_row])
    (scanRequestParams toUpperCase_ascii example_page example_order ["host"] example_query)
  = ApiValue (Some [example_row])
  /\ (getScans toUpperCase_ascii example_page example_order
        (example_search (Some [example_row])) failing_count
        ["host"] example_query []).2 = inl example_failure.
Proof.
  split; [reflexivity|].
  by rewrite (getScans_count_request_fails toUpperCase_ascii example_page example_order
                (example_search (Some [example_row])) failing_count
                ["host"] example_query (Some [example_row]) example_failure
                eq_refl eq_refl).
Defined.

(** ** Node type boxes and the loader *)

(** X10: Checking a node type box makes the loader ask for the node types of
    the query string and the box's own, never for the default three.
    Unchecking one makes it ask for the node types that remain, and for all
    three when none remains: with the last box unchecked the request is the
    one of a query string without node types. *)
Theorem node_type_boxes_and_loader (q : URLSearchParams) :
  Forall (fun box =>
            let '(value, handler) := box in
            loader_nodeType (handler true q) = USP.getAll "nodeType" q ++ [value]
            /\ loader_nodeType (handler false q)
               = match filter (fun s => s <> value) (USP.getAll "nodeType" q) with
                 | [] => ["container_image"; "container"; "host"]
                 | rest => rest
                 end)
         [ ("host", host_onCheckedChange);
           ("container", container_onCheckedChange);
           ("container_image", container_image_onCheckedChange) ].
Proof.
  pose proof boxes_forms as Hforms. unfold boxes in Hforms.
  repeat (apply Forall_cons in Hforms as [[_ ?Hf] Hforms]).
  assert (Hbox : forall value handler,
             (forall q', handler true q' = USP.delete "page" q' ++ [("nodeType", value)]
                         /\ handler false q' = unchecked_form "nodeType" value q') ->
             loader_nodeType (handler true q) = USP.getAll "nodeType" q ++ [value]
             /\ loader_nodeType (handler false q)
                = match filter (fun s => s <> value) (USP.getAll "nodeType" q) with
                  | [] => ["container_image"; "container"; "host"]
                  | rest => rest
                  end).
  { intros value handler Hh. destruct (Hh q) as [Htrue Hfalse].
    rewrite !loader_nodeType_cases, Htrue, Hfalse.
    rewrite getAll_checked_form, getAll_unchecked_form by discriminate. simpl.
    split; [|reflexivity]. by destruct (USP.getAll "nodeType" q). }
  repeat constructor; by apply Hbox.
Qed.

(** ** More on the row normaliser *)

Lemma default_zero_present (k : string) (m : gmap string Z) (n : Z) :
  m !! k = Some n -> default_zero k m = m.
Proof. intros H. unfold default_zero. rewrite H. by apply insert_id. Qed.

Lemma default_zero_keeps (k k' : string) (m : gmap string Z) (n : Z) :
  m !! k' = Some n -> default_zero k m !! k' = Some (default 0 (m !! k')).
Proof.
  intros H. destruct (decide (k = k')) as [->|Hne].
  - apply default_zero_lookup_eq.
  - rewrite default_zero_lookup_ne by exact Hne. by rewrite H.
Qed.

(** X11: Normalising is idempotent: a normalised row is its own normal form.
    The row's identity (scan id, node id, node type, status, time) is kept,
    the counts object of the result has the five severity keys, and a key
    of the counts object other than the five keeps what it had. *)
Theorem normalize_idempotent (row : ModelScanInfo) :
  normalize (scan (normalize row)) = normalize row
  /\ (scan_id (scan (normalize row)), node_id (scan (normalize row)),
      node_type (scan (normalize row)), status (scan (normalize row)),
      updated_at (scan (normalize row)))
     = (scan_id row, node_id row, node_type row, status row, updated_at row)
  /\ (forall k, k ∈ ["critical"; "high"; "medium"; "low"; "unknown"] ->
                is_Some (severity_counts (scan (normalize row)) !! k))
  /\ (forall k, k ∉ ["critical"; "high"; "medium"; "low"; "unknown"] ->
                severity_counts (scan (normalize row)) !! k = severity_counts row !! k).
Proof.
  set (m := severity_counts row).
  set (m' := default_zero "unknown"
               (default_zero "low"
                  (default_zero "medium"
                     (default_zero "high" (default_zero "critical" m))))).
  assert (Hfive : forall k, k ∈ ["critical"; "high"; "medium"; "low"; "unknown"] ->
                            m' !! k = Some (default 0 (m !! k))).
  { intros k Hk. by apply normalized_count. }
  assert (Hfix : default_zero "unknown"
                   (default_zero "low"
                      (default_zero "medium"
                         (default_zero "high" (default_zero "critical" m')))) = m').
  { rewrite (default_zero_present "critical" m' _ (Hfive "critical" ltac:(compute_done))).
    rewrite (default_zero_present "high" m' _ (Hfive "high" ltac:(compute_done))).
    rewrite (default_zero_present "medium" m' _ (Hfive "medium" ltac:(compute_done))).
    rewrite (default_zero_present "low" m' _ (Hfive "low" ltac:(compute_done))).
    by rewrite (default_zero_present "unknown" m' _ (Hfive "unknown" ltac:(compute_done))). }
  split; [|split; [reflexivity|split]].
  - unfold normalize. cbv zeta. simpl. fold m. fold m'. by rewrite Hfix.
  - intros k Hk. simpl. fold m. fold m'. rewrite (Hfive k Hk). by eexists.
  - intros k Hk. simpl. fold m. fold m'. unfold m'.
    rewrite !default_zero_lookup_ne; [reflexivity|..];
      intros <-; apply Hk; compute_done.
Qed.

(** ** More on the route action *)


(** X13: For a download action with a scan id and a node id, whatever the
    download request resolves to: the request is sent for that scan id, the
    toast 'Download is in progress' is shown once, and the action ends by
    clicking a link to the fixed address, with the download name
    secret_scan_ followed by the time; an error toast is shown exactly when
    the result is an error that carries a message. *)
Theorem download_always_starts
    (scanId nodeId : option string) (unixTime : Z)
    (result : ApiResult unit (option string)) :
  truthy scanId = true -> truthy nodeId = true ->
  exists effects,
    action (Some "download") scanId nodeId unixTime result = inr effects
    /\ head effects = Some (downloadScanResultsForScanID (default "" scanId) SecretScan)
    /\ last effects
       = Some (anchor_click "https://64.227.142.80/deepfence/openapi.json"
                 ("secret_scan_" +:+ String_of_number unixTime))
    /\ length (filter (fun e => e = toast_success "Download is in progress") effects)
       = 1%nat
    /\ (forall msg, toast_error msg ∈ effects <-> result = ApiError (Some msg))
    /\ (forall id type, deleteScanResultsForScanID id type ∉ effects).
Proof.
  intros Hscan Hnode. unfold action. rewrite Hscan, Hnode. simpl.
  eexists. split; [reflexivity|].
  destruct result as [[]|[m|]]; simpl;
    (split; [reflexivity|]); (split; [reflexivity|]); (split; [reflexivity|]); split.
  - intros msg. split; [|discriminate].
    intros H. repeat (apply elem_of_cons in H as [H|H]; [discriminate|]).
    by apply elem_of_nil in H.
  - intros id type H. repeat (apply elem_of_cons in H as [H|H]; [discriminate|]).
    by apply elem_of_nil in H.
  - intros msg. split.
    + intros H. apply elem_of_cons in H as [H|H]; [discriminate|].
      apply elem_of_cons in H as [H|H]; [by inversion H|].
      repeat (apply elem_of_cons in H as [H|H]; [discriminate|]).
      by apply elem_of_nil in H.
    + intros [= ->]. apply elem_of_cons. right. constructor.
  - intros id type H. repeat (apply elem_of_cons in H as [H|H]; [discriminate|]).
    by apply elem_of_nil in H.
  - intros msg. split; [|discriminate].
    intros H. repeat (apply elem_of_cons in H as [H|H]; [discriminate|]).
    by apply elem_of_nil in H.
  - intros id type H. repeat (apply elem_of_cons in H as [H|H]; [discriminate|]).
    by apply elem_of_nil in H.
Qed.

Lemma download_always_starts_witness :
  truthy (Some "scan-1") = true /\ truthy (Some "node-1") = true
  /\ exists effects,
       action (Some "download") (Some "scan-1") (Some "node-1") 1700000000
              (ApiError (Some "conflict")) = inr effects
       /\ last effects
          = Some (anchor_click "https://64.227.142.80/deepfence/openapi.json"
                    "secret_scan_1700000000").
Proof.
  split; [reflexivity|]. split; [reflexivity|].
  destruct (download_always_starts (Some "scan-1") (Some "node-1") 1700000000
              (ApiError (Some "conflict")) eq_refl eq_refl)
    as (effects & Hrun & _ & Hlast & _).
  exists effects. split; [exact Hrun|exact Hlast].
Defined.

(** X14: An action whose type is neither delete nor download does nothing: no
    request, no toast, and it returns as a success.  A delete or download
    request is sent only for the action type of its name, for the submitted
    scan id and the secret scan type. *)
Theorem action_requests_by_type
    (actionType scanId nodeId : string) (unixTime : Z)
    (result : ApiResult unit (option string)) (effects : list Effect) :
  submit_action actionType scanId nodeId unixTime result = inr effects ->
  (actionType <> "delete" -> actionType <> "download" -> effects = [])
  /\ (forall id type, deleteScanResultsForScanID id type ∈ effects ->
                      actionType = "delete" /\ id = scanId /\ type = SecretScan)
  /\ (forall id type, downloadScanResultsForScanID id type ∈ effects ->
                      actionType = "download" /\ id = scanId /\ type = SecretScan).
Proof.
  unfold submit_action, action.
  destruct (negb (truthy (Some actionType)) || negb (truthy (Some scanId))
            || negb (truthy (Some nodeId))); [discriminate|].
  simpl default.
  case_bool_decide as Hdel; [|case_bool_decide as Hdown].
  - injection Hdel as ->. intros [= <-]. split; [done|]. split.
    + intros id type H. apply elem_of_cons in H as [H|H]; [by inversion H|].
      exfalso. destruct result as [[]|[m|]]; simpl in H;
        repeat (apply elem_of_cons in H as [H|H]; [discriminate|]);
        by apply elem_of_nil in H.
    + intros id type H. exfalso. destruct result as [[]|[m|]]; simpl in H;
        repeat (apply elem_of_cons in H as [H|H]; [discriminate|]);
        by apply elem_of_nil in H.
  - injection Hdown as ->. intros [= <-]. split; [done|]. split.
    + intros id type H. exfalso. destruct result as [[]|[m|]]; simpl in H;
        repeat (apply elem_of_cons in H as [H|H]; [discriminate|]);
        by apply elem_of_nil in H.
    + intros id type H. apply elem_of_cons in H as [H|H]; [by inversion H|].
      exfalso. destruct result as [[]|[m|]]; simpl in H;
        repeat (apply elem_of_cons in H as [H|H]; [discriminate|]);
        by apply elem_of_nil in H.
  - intros [= <-]. split; [done|].
    split; intros id type H; by apply elem_of_nil in H.
Qed.

Lemma action_requests_by_type_witness :
  exists effects,
    submit_action "delete" "scan-1" "node-1" 0 (ApiValue tt) = inr effects
    /\ (forall id type, deleteScanResultsForScanID id type ∈ effects ->
                        "delete" = "delete" /\ id = "scan-1" /\ type = SecretScan)
    /\ (forall id type, downloadScanResultsForScanID id type ∈ effects ->
                        "delete" = "download" /\ id = "scan-1" /\ type = SecretScan).
Proof.
  eexists. split; [reflexivity|].
  exact (proj2 (action_requests_by_type "delete" "scan-1" "node-1" 0 (ApiValue tt)
                  _ eq_refl)).
Defined.

(* ===================================================================== *)
(** * Part II.d  More facts about the settings handler *)
(* ===================================================================== *)

(** ** Writes *)


(** X16: A successful update neither adds nor removes a row, keeps the store
    available, and keeps the ids of the rows unique if they were. *)
Theorem update_keeps_rows (h : Handler) (r : Request) (db db' : Postgres) :
  UpdateGlobalSettings h r db = (WriteHeader StatusNoContent, db') ->
  dom (setting db') = dom (setting db)
  /\ (forall k, is_Some (setting db' !! k) <-> is_Some (setting db !! k))
  /\ (forall k row', setting db' !! k = Some row' ->
                     exists row, setting db !! k = Some row /\ row_ID row' = row_ID row)
  /\ (ids_unique (setting db) -> ids_unique (setting db'))
  /\ available db' = true.
Proof.
  unfold UpdateGlobalSettings.
  destruct (UpdateGlobalSettings_run h r db) as [resp|table] eqn:Hrun.
  { intros [= Hresp _]. exfalso.
    destruct (run_responses h r db) as [[err Herr]|[table [Hrun' _]]]; [|congruence].
    unfold UpdateGlobalSettings in Herr. rewrite Hrun in Herr. congruence. }
  intros [= <-].
  destruct (run_success_inv h r db table Hrun)
    as (id & key & v & row & value & Hav & _ & _ & _ & Hrow & Hid & _ & ->).
  simpl.
  assert (Hids : forall k row', <[key := updated_row id row value]> (setting db) !! k
                                = Some row' ->
                  exists row0, setting db !! k = Some row0 /\ row_ID row' = row_ID row0).
  { intros k row'. destruct (decide (key = k)) as [<-|Hne].
    - rewrite lookup_insert_eq. intros [= <-]. exists row. by split.
    - rewrite lookup_insert_ne by exact Hne. intros H. exists row'. by split. }
  assert (Hdom : dom (<[key := updated_row id row value]> (setting db))
                 = dom (setting db)).
  { apply dom_insert_lookup_L. by exists row. }
  split; [exact Hdom|]. split; [|split; [exact Hids|split; [|by rewrite Hav]]].
  - intros k. by rewrite <- !elem_of_dom, Hdom.
  - intros Huniq k1 k2 r1 r2 H1 H2 Heq.
    destruct (Hids k1 r1 H1) as (r1' & H1' & E1).
    destruct (Hids k2 r2 H2) as (r2' & H2' & E2).
    apply (Huniq k1 k2 r1' r2' H1' H2'). congruence.
Qed.

Lemma update_keeps_rows_witness :
  UpdateGlobalSettings example_handler
    (example_request "2" InactiveNodesDeleteScanResultsKey (ReqFloat64 float_7_6))
    example_db
  = (WriteHeader StatusNoContent,
     {| available := true;
        setting := <[InactiveNodesDeleteScanResultsKey :=
                       updated_row 2 retention_row (StoredInt 8)]>
                     (setting example_db) |})
  /\ dom (<[InactiveNodesDeleteScanResultsKey :=
              updated_row 2 retention_row (StoredInt 8)]> (setting example_db))
     = dom (setting example_db).
Proof.
  assert (Hrun : UpdateGlobalSettings example_handler
            (example_request "2" InactiveNodesDeleteScanResultsKey (ReqFloat64 float_7_6))
            example_db
          = (WriteHeader StatusNoContent,
             {| available := true;
                setting := <[InactiveNodesDeleteScanResultsKey :=
                               updated_row 2 retention_row (StoredInt 8)]>
                             (setting example_db) |})).
  { vm_compute. reflexivity. }
  split; [exact Hrun|].
  destruct (update_keeps_rows _ _ _ _ Hrun) as [Hdom _]. exact Hdom.
Defined.

(** The switch reads the key of the current setting and the request, and
    nothing else of the row. *)
Lemma switch_Key_row (key : string) (row row' : SettingRow) (req : SettingUpdateRequest) :
  switch_Key (current_of key row') req = switch_Key (current_of key row) req.
Proof. reflexivity. Qed.

(** X17: Sending a successful request again succeeds again and leaves the
    store as the first time left it. *)
Theorem update_idempotent (h : Handler) (r : Request) (db db' : Postgres) :
  UpdateGlobalSettings h r db = (WriteHeader StatusNoContent, db') ->
  UpdateGlobalSettings h r db' = (WriteHeader StatusNoContent, db').
Proof.
  unfold UpdateGlobalSettings at 1.
  destruct (UpdateGlobalSettings_run h r db) as [resp|table] eqn:Hrun.
  { intros [= Hresp _]. exfalso.
    destruct (run_responses h r db) as [[err Herr]|[table [Hrun' _]]]; [|congruence].
    unfold UpdateGlobalSettings in Herr. rewrite Hrun in Herr. congruence. }
  intros [= <-].
  destruct (run_success_inv h r db table Hrun)
    as (id & key & v & row & value & Hav & Hid & Hbody & Hv & Hrow & Hrowid & Hsw & ->).
  set (db' := {| available := available db;
                 setting := <[key := updated_row id row value]> (setting db) |}).
  assert (Hav' : available db' = true) by exact Hav.
  assert (Hrow' : setting db' !! key = Some (updated_row id row value)).
  { apply lookup_insert_eq. }
  unfold UpdateGlobalSettings.
  rewrite (run_with_row h r db' id key v Hav' Hid Hbody _ Hv Hrow').
  simpl row_ID. rewrite Z.eqb_refl. simpl negb. cbv iota.
  rewrite (switch_Key_row key row), Hsw.
  unfold db'. simpl. f_equal. f_equal.
  rewrite insert_insert_eq. reflexivity.
Qed.

Lemma update_idempotent_witness :
  UpdateGlobalSettings example_handler
    (example_request "2" InactiveNodesDeleteScanResultsKey (ReqFloat64 float_7_6))
    example_db
  = (WriteHeader StatusNoContent,
     {| available := true;
        setting := <[InactiveNodesDeleteScanResultsKey :=
                       updated_row 2 retention_row (StoredInt 8)]>
                     (setting example_db) |})
  /\ UpdateGlobalSettings example_handler
       (example_request "2" InactiveNodesDeleteScanResultsKey (ReqFloat64 float_7_6))
       {| available := true;
          setting := <[InactiveNodesDeleteScanResultsKey :=
                         updated_row 2 retention_row (StoredInt 8)]>
                       (setting example_db) |}
     = (WriteHeader StatusNoContent,
        {| available := true;
           setting := <[InactiveNodesDeleteScanResultsKey :=
                          updated_row 2 retention_row (StoredInt 8)]>
                        (setting example_db) |}).
Proof.
  assert (Hrun : UpdateGlobalSettings example_handler
            (example_request "2" InactiveNodesDeleteScanResultsKey (ReqFloat64 float_7_6))
            example_db
          = (WriteHeader StatusNoContent,
             {| available := true;
                setting := <[InactiveNodesDeleteScanResultsKey :=
                               updated_row 2 retention_row (StoredInt 8)]>
                             (setting example_db) |})).
  { vm_compute. reflexivity. }
  split; [exact Hrun|]. exact (update_idempotent _ _ _ _ Hrun).
Defined.

(** ** The order of the checks *)

(** X18: With the store available the handler checks, in this order: the id of
    the route, the body, the validator, the row of the request's key, the
    id of that row, and only then the value.  Each failure is answered with
    its own error and nothing is written: a malformed id with BadDecoding
    whatever the body; a row with another id with the validation error on
    the id whatever the key and the value, a malformed console URL
    included. *)
Theorem update_checks_in_order (h : Handler) (r : Request) (db : Postgres) :
  available db = true ->
  (forall e, ParseInt (URLParam_id r) = inl e ->
             UpdateGlobalSettings h r db = (respondError (BadDecoding e), db))
  /\ (forall id e, ParseInt (URLParam_id r) = inr id -> DecodeJSON r = inl e ->
                   UpdateGlobalSettings h r db = (respondError (Unwrapped e), db))
  /\ (forall id key v,
        ParseInt (URLParam_id r) = inr id -> DecodeJSON r = inr (key, v) ->
        let req := {| req_ID := id; req_Key := key; req_Value := v |} in
        (forall err, Validator_Struct h req = Some err ->
                     UpdateGlobalSettings h r db
                     = (respondError (ValidatorError err), db))
        /\ (Validator_Struct h req = None -> setting db !! key = None ->
            UpdateGlobalSettings h r db
            = (respondError (Unwrapped "sql: no rows in result set"), db))
        /\ (forall row, Validator_Struct h req = None ->
                        setting db !! key = Some row -> row_ID row <> id ->
                        UpdateGlobalSettings h r db
                        = (respondError
                             (ValidatorError
                                "Key: 'SettingUpdateRequest.ID' Error:invalid"), db))).
Proof.
  intros Hav. split; [|split].
  - intros e He. unfold UpdateGlobalSettings, UpdateGlobalSettings_run, PostgresClient.
    by rewrite Hav, He.
  - intros id e Hid He.
    unfold UpdateGlobalSettings, UpdateGlobalSettings_run, PostgresClient.
    by rewrite Hav, Hid, He.
  - intros id key v Hid Hbody req. unfold UpdateGlobalSettings. split; [|split].
    + intros err Hv. by rewrite (run_validator_refuses h r db id key v Hav Hid Hbody err Hv).
    + intros Hv Hnone. by rewrite (run_no_row h r db id key v Hav Hid Hbody Hv Hnone).
    + intros row Hv Hrow Hne.
      rewrite (run_with_row h r db id key v Hav Hid Hbody row Hv Hrow).
      destruct (Z.eqb_spec id (row_ID row)); [congruence|reflexivity].
Qed.

Lemma update_checks_in_order_witness :
  available example_db = true
  /\ UpdateGlobalSettings example_handler
       (example_request "2" ConsoleURLSettingKey (ReqString "not a url"))
       example_db
     = (respondError (ValidatorError "Key: 'SettingUpdateRequest.ID' Error:invalid"),
        example_db)
  /\ UpdateGlobalSettings example_handler
       (example_request "one" ConsoleURLSettingKey (ReqString "https://example.com"))
       example_db
     = (respondError (BadDecoding "strconv.ParseInt: invalid syntax"), example_db).
Proof.
  destruct (update_checks_in_order example_handler
              (example_request "2" ConsoleURLSettingKey (ReqString "not a url"))
              example_db eq_refl) as (_ & _ & H3).
  destruct (H3 2 ConsoleURLSettingKey (ReqString "not a url") eq_refl eq_refl)
    as (_ & _ & Hrow).
  split; [reflexivity|]. split.
  - apply (Hrow console_row); [reflexivity|reflexivity|discriminate].
  - vm_compute. reflexivity.
Defined.

(** ** Values *)






(** ** Well-formed console URLs *)

Lemma length_append (a b : string) :
  String.length (a +:+ b) = (String.length a + String.length b)%nat.
Proof. induction a as [|c a IH]; simpl; [reflexivity|by rewrite IH]. Qed.

Lemma append_empty (a : string) : a +:+ "" = a.
Proof.
  induction a as [|c a IH]; [reflexivity|].
  change (String c a +:+ "") with (String c (a +:+ "")). by rewrite IH.
Qed.

Lemma substring_whole (s : string) : substring 0 (String.length s) s = s.
Proof. induction s as [|c s IH]; simpl; [reflexivity|by rewrite IH]. Qed.

Lemma substring_head (a b : string) : substring 0 (String.length a) (a +:+ b) = a.
Proof. induction a as [|c a IH]; simpl; [by destruct b|by rewrite IH]. Qed.

Lemma substring_tail (a b : string) (m : nat) :
  substring (String.length a) m (a +:+ b) = substring 0 m b.
Proof. induction a as [|c a IH]; simpl; [reflexivity|exact IH]. Qed.

Lemma slice_to_append (a b : string) : gostrings.slice_to (a +:+ b) (String.length a) = a.
Proof. apply substring_head. Qed.

Lemma slice_from_append (a b : string) :
  gostrings.slice_from (a +:+ b) (String.length a) = b.
Proof.
  unfold gostrings.slice_from. rewrite substring_tail, length_append.
  replace (String.length a + String.length b - String.length a)%nat
    with (String.length b) by lia.
  apply substring_whole.
Qed.

Lemma Count_append (a b : string) (c : ascii) :
  gostrings.Count (a +:+ b) c = (gostrings.Count a c + gostrings.Count b c)%nat.
Proof. induction a as [|x a IH]; simpl; [reflexivity|rewrite IH; lia]. Qed.

Lemma ctl_append (a b : string) :
  url.stringContainsCTLByte (a +:+ b)
  = url.stringContainsCTLByte a || url.stringContainsCTLByte b.
Proof.
  induction a as [|x a IH]; [reflexivity|].
  change (String x a +:+ b) with (String x (a +:+ b)).
  cbn [url.stringContainsCTLByte]. rewrite IH.
  by rewrite !orb_assoc.
Qed.

(** What the bytes of a plain host and of a scheme are not. *)
Lemma host_byte_facts (c : ascii) :
  host_byte c = true ->
  ((N_of_ascii c <? 32)%N || (N_of_ascii c =? 127)%N = false)
  /\ Ascii.eqb c "?" = false /\ Ascii.eqb c "@" = false
  /\ Ascii.eqb c ":" = false /\ Ascii.eqb c "/" = false
  /\ Ascii.eqb "[" c = false /\ c <> "%"%char
  /\ ((N_of_ascii c <? 128)%N && url.shouldEscape_host c = false).
Proof.
  destruct c as [[] [] [] [] [] [] [] []]; vm_compute; intros H;
    first [discriminate H | repeat split; discriminate].
Qed.

Lemma letter_is_host_byte (c : ascii) : url.is_letter c = true -> host_byte c = true.
Proof. intros H. unfold host_byte. by rewrite H. Qed.

Lemma plain_host_cons (c : ascii) (s : string) :
  plain_host (String c s) = host_byte c && plain_host s.
Proof. reflexivity. Qed.

Lemma all_letters_plain_host (s : string) : all_letters s = true -> plain_host s = true.
Proof.
  induction s as [|c s IH]; [reflexivity|].
  cbn [all_letters]. intros H. apply andb_prop in H as [Hc Hs].
  rewrite plain_host_cons, (letter_is_host_byte c Hc). by apply IH.
Qed.

Lemma index_slash_cons (c : ascii) (t : string) :
  String.index 0 "/" (String c t)
  = if Ascii.eqb c "/" then Some 0%nat
    else match String.index 0 "/" t with Some n => Some (S n) | None => None end.
Proof.
  cbn [String.index].
  destruct (String.prefix "/" (String c t)) eqn:Hp.
  - apply prefix_correct in Hp. cbn [String.length substring] in Hp.
    assert (c = "/"%char) as -> by (destruct t; congruence).
    reflexivity.
  - destruct (Ascii.eqb_spec c "/") as [->|_]; [|reflexivity].
    assert (String.prefix "/" (String "/" t) = true) as Ht; [|congruence].
    apply prefix_correct. cbn [String.length substring]. by destruct t.
Qed.

Lemma plain_host_facts (s : string) :
  plain_host s = true ->
  url.stringContainsCTLByte s = false
  /\ gostrings.Count s "?" = 0%nat
  /\ gostrings.LastIndex s "@" = None
  /\ gostrings.LastIndex s ":" = None
  /\ gostrings.HasPrefix s "[" = false
  /\ url.unescape s url.encodeHost = inr s
  /\ (forall t, gostrings.Index (s +:+ String "/" t) "/" = Some (String.length s))
  /\ gostrings.Index s "/" = None.
Proof.
  induction s as [|c s IH].
  { intros _. repeat split; try reflexivity. intros t. unfold gostrings.Index.
    change ("" +:+ String "/" t) with (String "/" t).
    by rewrite index_slash_cons. }
  rewrite plain_host_cons. intros H. apply andb_prop in H as [Hc Hs].
  destruct (IH Hs) as (I1 & I2 & I3 & I4 & I5 & I6 & I7 & I8).
  destruct (host_byte_facts c Hc) as (F1 & F2 & F3 & F4 & F5 & F6 & F7 & F8).
  split; [|split; [|split; [|split; [|split; [|split; [|split]]]]]].
  - cbn [url.stringContainsCTLByte]. by rewrite I1, orb_false_r.
  - cbn [gostrings.Count]. by rewrite F2, I2.
  - cbn [gostrings.LastIndex]. by rewrite I3, F3.
  - cbn [gostrings.LastIndex]. by rewrite I4, F4.
  - cbn [gostrings.HasPrefix]. by rewrite F6.
  - assert (Hstep : url.unescape (String c s) url.encodeHost
                    = if (N_of_ascii c <? 128)%N && url.shouldEscape_host c
                      then inl "invalid character in host name"
                      else match url.unescape s url.encodeHost with
                           | inl e => inl e
                           | inr t => inr (String c t)
                           end).
    { destruct c as [[] [] [] [] [] [] [] []]; try reflexivity. by destruct F7. }
    by rewrite Hstep, F8, I6.
  - intros t. unfold gostrings.Index in *.
    change ((String c s) +:+ String "/" t) with (String c (s +:+ String "/" t)).
    by rewrite index_slash_cons, F5, I7.
  - unfold gostrings.Index in *. by rewrite index_slash_cons, F5, I8.
Qed.

Lemma getScheme_from_letters (rawURL s rest : string) (i : nat) :
  all_letters s = true -> (0 < i + String.length s)%nat ->
  url.getScheme_from rawURL i (s +:+ String ":" rest)
  = inr (gostrings.slice_to rawURL (i + String.length s), rest).
Proof.
  revert i. induction s as [|c s IH]; intros i Hs Hi.
  - change ("" +:+ String ":" rest) with (String ":" rest).
    cbn [url.getScheme_from String.length] in *.
    replace (url.is_letter ":") with false by reflexivity.
    replace (url.is_digit ":" || url.one_of "+-." ":") with false by reflexivity.
    replace (Ascii.eqb ":" ":") with true by reflexivity.
    rewrite Nat.add_0_r in *.
    destruct (Nat.eqb_spec i 0) as [->|_]; [lia|reflexivity].
  - change (String c s +:+ String ":" rest) with (String c (s +:+ String ":" rest)).
    cbn [all_letters] in Hs. apply andb_prop in Hs as [Hc Hs].
    cbn [url.getScheme_from String.length] in *. rewrite Hc.
    rewrite (IH (S i) Hs) by lia. do 3 f_equal. lia.
Qed.

Lemma getScheme_letters (s rest : string) :
  all_letters s = true -> s <> "" ->
  url.getScheme (s +:+ String ":" rest) = inr (s, rest).
Proof.
  intros Hs Hne. unfold url.getScheme.
  rewrite getScheme_from_letters; [|done|destruct s; [done|simpl; lia]].
  by rewrite Nat.add_0_l, slice_to_append.
Qed.

Lemma HasSuffix_cons (c : ascii) (t : string) :
  gostrings.HasSuffix (String c t) "?"
  = match t with
    | EmptyString => Ascii.eqb c "?"
    | String _ _ => gostrings.HasSuffix t "?"
    end.
Proof.
  unfold gostrings.HasSuffix. destruct t as [|d t].
  - cbn [String.length Nat.leb Nat.sub andb substring String.eqb].
    by destruct (Ascii.eqb c "?").
  - cbn [String.length]. cbn [Nat.leb Nat.sub andb]. rewrite !Nat.sub_0_r.
    reflexivity.
Qed.

Lemma HasSuffix_append (a b : string) :
  b <> "" -> gostrings.HasSuffix (a +:+ b) "?" = gostrings.HasSuffix b "?".
Proof.
  intros Hb. induction a as [|c a IH]; [reflexivity|].
  change (String c a +:+ b) with (String c (a +:+ b)).
  rewrite HasSuffix_cons, IH. destruct (a +:+ b) eqn:E; [|reflexivity].
  destruct a; [by destruct Hb|discriminate].
Qed.

Lemma HasSuffix_Count (s : string) :
  gostrings.HasSuffix s "?" = true -> gostrings.Count s "?" <> 0%nat.
Proof.
  induction s as [|c s IH]; [discriminate|].
  rewrite HasSuffix_cons. cbn [gostrings.Count]. destruct s as [|d s].
  - intros ->. discriminate.
  - intros H. specialize (IH H). lia.
Qed.

Lemma Cut_none (a : string) :
  gostrings.Count a "?" = 0%nat -> gostrings.Cut a "?" = (a, "", false).
Proof.
  induction a as [|c a IH]; [reflexivity|].
  cbn [gostrings.Count gostrings.Cut].
  destruct (Ascii.eqb c "?"); [discriminate|]. intros H. by rewrite IH.
Qed.

Lemma Cut_append (a b : string) :
  gostrings.Count a "?" = 0%nat ->
  gostrings.Cut (a +:+ String "?" b) "?" = (a, b, true).
Proof.
  induction a as [|c a IH]; [reflexivity|].
  change (String c a +:+ String "?" b) with (String c (a +:+ String "?" b)).
  cbn [gostrings.Count gostrings.Cut].
  destruct (Ascii.eqb c "?"); [discriminate|]. intros H. by rewrite IH.
Qed.

(** The split of the query off the rest, as [parse] does it: whatever
    follows the first question mark, what is before it stays. *)
Lemma query_split (a query : string) (with_query : bool) :
  gostrings.Count a "?" = 0%nat ->
  let rest := a +:+ (if with_query then String "?" query else "") in
  exists rawQuery forceQuery,
    (if gostrings.HasSuffix rest "?" && (gostrings.Count rest "?" =? 1)%nat
     then (gostrings.slice_to rest (String.length rest - 1), EmptyString, true)
     else let '(before, after, _) := gostrings.Cut rest "?" in (before, after, false))
    = (a, rawQuery, forceQuery).
Proof.
  intros Ha rest. subst rest. destruct with_query.
  - destruct (gostrings.HasSuffix _ _ && _) eqn:Hforce.
    + apply andb_prop in Hforce as [Hsuf Hone].
      apply Nat.eqb_eq in Hone. rewrite Count_append, Ha in Hone.
      cbn [gostrings.Count] in Hone.
      replace (Ascii.eqb "?" "?") with true in Hone by reflexivity.
      rewrite HasSuffix_append, HasSuffix_cons in Hsuf by discriminate.
      destruct query as [|d query].
      * exists "", true. do 2 f_equal.
        rewrite length_append. cbn [String.length].
        replace (String.length a + 1 - 1)%nat with (String.length a) by lia.
        apply slice_to_append.
      * apply HasSuffix_Count in Hsuf. lia.
    + rewrite (Cut_append a query Ha). by exists query, false.
  - rewrite append_empty.
    rewrite Ha, andb_false_r, (Cut_none a Ha). by exists "", false.
Qed.

Lemma string_append_assoc (a b c : string) : (a +:+ b) +:+ c = a +:+ (b +:+ c).
Proof.
  induction a as [|x a IH]; [reflexivity|].
  change ((String x a +:+ b) +:+ c) with (String x ((a +:+ b) +:+ c)).
  by rewrite IH.
Qed.

Lemma parseAuthority_plain (host : string) :
  plain_host host = true -> url.parseAuthority host = inr (None, host).
Proof.
  intros Hh. destruct (plain_host_facts host Hh) as (_ & _ & H3 & H4 & H5 & H6 & _).
  unfold url.parseAuthority, url.parseHost. by rewrite H3, H5, H4, H6.
Qed.

Lemma slice_from_two (x : string) :
  gostrings.slice_from (String "/" (String "/" x)) 2 = x.
Proof.
  unfold gostrings.slice_from. cbn [String.length Nat.sub substring].
  rewrite Nat.sub_0_r. apply substring_whole.
Qed.

(** The authority and the path [parse] finds after the two slashes. *)
Lemma authority_split (host path : string) :
  plain_host host = true ->
  path = "" \/ gostrings.HasPrefix path "/" = true ->
  match gostrings.Index (host +:+ path) "/" with
  | Some i => (gostrings.slice_to (host +:+ path) i, gostrings.slice_from (host +:+ path) i)
  | None => (host +:+ path, EmptyString)
  end = (host, path).
Proof.
  intros Hh Hp. destruct (plain_host_facts host Hh) as (_ & _ & _ & _ & _ & _ & H7 & H8).
  destruct Hp as [->|Hp].
  - by rewrite append_empty, H8.
  - destruct path as [|c path]; [discriminate|].
    change (gostrings.HasPrefix (String c path) "/")
      with (Ascii.eqb "/" c && gostrings.HasPrefix path EmptyString) in Hp.
    apply andb_prop in Hp as [Hc _]. apply Ascii.eqb_eq in Hc as <-.
    by rewrite H7, slice_to_append, slice_from_append.
Qed.

(** [ParseRequestURI] on scheme://host/path?query with a scheme of letters,
    a host of letters, digits, dots and hyphens, a path without escapes
    and a query without control bytes. *)
Lemma ParseRequestURI_well_formed
    (scheme host path query : string) (with_query : bool) :
  all_letters scheme = true -> scheme <> "" ->
  plain_host host = true ->
  plain_text path = true ->
  path = "" \/ gostrings.HasPrefix path "/" = true ->
  url.stringContainsCTLByte query = false ->
  exists rawQuery forceQuery,
    url.ParseRequestURI
      (scheme +:+ "://" +:+ host +:+ path
       +:+ (if with_query then String "?" query else ""))
    = inr {| url.Scheme := gostrings.ToLower scheme; url.Opaque := "";
             url.User := None; url.Host := host; url.Path := path;
             url.OmitHost := false; url.ForceQuery := forceQuery;
             url.RawQuery := rawQuery |}.
Proof.
  intros Hs Hne Hh Hp Hslash Hq.
  destruct (plain_host_facts scheme (all_letters_plain_host scheme Hs))
    as (S1 & _).
  destruct (plain_host_facts host Hh) as (A1 & A2 & _).
  destruct (plain_text_facts path Hp) as (P1 & P2 & _ & P4).
  set (tail := if with_query then String "?" query else "").
  set (a := String "/" (String "/" (host +:+ path))).
  assert (Hraw : scheme +:+ "://" +:+ host +:+ path +:+ tail
                 = scheme +:+ String ":" (a +:+ tail)).
  { subst a. rewrite <- (string_append_assoc host path tail). reflexivity. }
  rewrite Hraw.
  assert (Ha : gostrings.Count a "?" = 0%nat).
  { subst a. cbn [gostrings.Count].
    replace (Ascii.eqb "/" "?") with false by reflexivity.
    by rewrite Count_append, A2, P2. }
  assert (Htail : url.stringContainsCTLByte tail = false).
  { subst tail. destruct with_query; [|reflexivity].
    cbn [url.stringContainsCTLByte]. by rewrite Hq. }
  assert (Hctl : url.stringContainsCTLByte (scheme +:+ String ":" (a +:+ tail)) = false).
  { rewrite ctl_append, S1. cbn [url.stringContainsCTLByte orb].
    rewrite ctl_append, Htail. subst a. cbn [url.stringContainsCTLByte].
    by rewrite ctl_append, A1, P1. }
  assert (Hnot : String.eqb (scheme +:+ String ":" (a +:+ tail)) EmptyString = false
                 /\ String.eqb (scheme +:+ String ":" (a +:+ tail)) "*" = false
                 /\ String.eqb (gostrings.ToLower scheme) EmptyString = false).
  { destruct scheme as [|c s]; [by destruct Hne|].
    change (String c s +:+ String ":" (a +:+ tail))
      with (String c (s +:+ String ":" (a +:+ tail))).
    cbn [String.eqb gostrings.ToLower]. repeat split.
    destruct (Ascii.eqb c "*"); [|reflexivity]. by destruct s. }
  destruct Hnot as (N1 & N2 & N3).
  unfold url.ParseRequestURI, url.parse.
  rewrite Hctl, N1, N2, (getScheme_letters scheme (a +:+ tail) Hs Hne).
  destruct (query_split a query with_query Ha) as (rawQuery & forceQuery & Hsplit).
  fold tail in Hsplit. cbv zeta in Hsplit. exists rawQuery, forceQuery.
  rewrite Hsplit. cbv beta iota zeta.
  replace (gostrings.HasPrefix a "/") with true by reflexivity.
  replace (gostrings.HasPrefix a "//") with true by reflexivity.
  rewrite N3. cbn [negb andb]. subst a. rewrite slice_from_two.
  rewrite (authority_split host path Hh Hslash).
  by rewrite (parseAuthority_plain host Hh), P4.
Qed.

(** X21: A console URL of the form scheme://host, with or without a path and a
    query, is accepted, and what is stored is the scheme in lower case,
    "://" and the host as written: path and query are dropped. *)
Theorem console_url_normalised
    (h : Handler) (r : Request) (db : Postgres) (id : Z) (row : SettingRow)
    (scheme host path query : string) (with_query : bool) :
  available db = true ->
  ParseInt (URLParam_id r) = inr id ->
  DecodeJSON r
  = inr (ConsoleURLSettingKey,
         ReqString (scheme +:+ "://" +:+ host +:+ path
                    +:+ (if with_query then String "?" query else ""))) ->
  Validator_Struct h
    {| req_ID := id; req_Key := ConsoleURLSettingKey;
       req_Value := ReqString (scheme +:+ "://" +:+ host +:+ path
                               +:+ (if with_query then String "?" query else "")) |}
  = None ->
  setting db !! ConsoleURLSettingKey = Some row ->
  row_ID row = id ->
  all_letters scheme = true -> scheme <> "" ->
  plain_host host = true ->
  plain_text path = true ->
  path = "" \/ gostrings.HasPrefix path "/" = true ->
  url.stringContainsCTLByte query = false ->
  UpdateGlobalSettings h r db
  = (WriteHeader StatusNoContent,
     {| available := true;
        setting := <[ConsoleURLSettingKey :=
                       updated_row id row
                         (StoredString (gostrings.ToLower scheme +:+ "://" +:+ host))]>
                     (setting db) |}).
Proof.
  intros Hav Hid Hbody Hv Hrow Hrowid Hs Hne Hh Hp Hslash Hq.
  rewrite (console_url_update h r db id _ row Hav Hid Hbody Hv Hrow Hrowid).
  destruct (ParseRequestURI_well_formed scheme host path query with_query
              Hs Hne Hh Hp Hslash Hq) as (rawQuery & forceQuery & ->).
  reflexivity.
Qed.

Lemma console_url_normalised_witness :
  UpdateGlobalSettings example_handler
    (example_request "1" ConsoleURLSettingKey
       (ReqString "HTTPS://Console.example-1.com/a/b?x=1&y=%zz"))
    example_db
  = (WriteHeader StatusNoContent,
     {| available := true;
        setting := <[ConsoleURLSettingKey :=
                       updated_row 1 console_row
                         (StoredString "https://Console.example-1.com")]>
                     (setting example_db) |}).
Proof.
  apply (console_url_normalised example_handler
           (example_request "1" ConsoleURLSettingKey
              (ReqString "HTTPS://Console.example-1.com/a/b?x=1&y=%zz"))
           example_db 1 console_row
           "HTTPS" "Console.example-1.com" "/a/b" "x=1&y=%zz" true);
    first [reflexivity | discriminate | by right].
Defined.
